(** * unoRadar / SIREN backend: server lifecycle manager and process entry point

    A shallow embedding of
      - [backend/src/websocket/server_lifecycle_manager.cpp]
        ([ServerLifecycleManager::initialize], [start], [stop],
        [rollbackStartedComponents]), and
      - [backend/src/main.cpp] ([main]),
    followed by the properties of the lifecycle that the specification states.

    The lifecycle manager only coordinates components it does not own; what
    a component does when one of its methods is called is therefore an input
    of the model (a [World]): every call into a component either returns or
    throws, and a smart pointer may be empty.  The manager's own control
    flow (early returns, the start ledger, the two [try] blocks, the
    [noexcept] rollback) is transcribed statement by statement. *)

From Stdlib Require Import List Bool String ZArith Lia.
Import ListNotations.

Set Implicit Arguments.

(* ===================================================================== *)
(** ** The lifecycle manager *)
(* ===================================================================== *)

Module Lifecycle.

Open Scope string_scope.
Open Scope list_scope.

(** The coordinated components: the four members [connection_acceptor_],
    [session_manager_], [message_broadcaster_], [statistics_collector_].
    ([event_handler_] is only captured by the callbacks, never called by the
    lifecycle functions themselves.) *)
Inductive Component : Type :=
| ConnectionAcceptor
| SessionManager
| MessageBroadcaster
| StatisticsCollector.

(** The component methods the manager calls. *)
Inductive Method : Type :=
| Initialize
| Start
| Stop
| CloseAllSessions
| SetAcceptCallback
| SetErrorCallback
| SetSessionCallback
| SetBroadcastCallback.

Scheme Equality for Component.
Scheme Equality for Method.

(** What is thrown: something derived from [std::exception] (caught by
    [catch (const std::exception&)]) or anything else (caught only by
    [catch (...)]). *)
Inductive Exn : Type := StdException | OtherException.

(** What one call into a component does.  A [void] method returns an
    ignored value. *)
Inductive Outcome : Type :=
| Returns (b : bool)
| Throws (e : Exn).

(** The environment of one lifecycle call. [present c] tells whether the
    smart pointer to [c] is non-null, [behaviour c m] what [c->m()] does. *)
Record World : Type := {
  present : Component -> bool;
  behaviour : Component -> Method -> Outcome
}.

(** The two shared atomics. *)
Inductive Flag : Type := Running | ShutdownRequested.

Inductive Severity : Type := WARNING | ERROR | FATAL.

(** The message constants of [constants/message.hpp] that the manager
    prints; their text is not part of this unit, so they stay symbolic. *)
Inductive Message : Type :=
| SERVER_INITIALIZED
| INIT_FAILED_EXCEPTION
| SERVER_ALREADY_RUNNING
| SERVER_STARTED
| START_FAILED_EXCEPTION
| STOPPING_SERVER
| SERVER_STOPPED
| Literal (text : string).

(** What the manager reports, through [utils::ErrorHandler] or directly on
    [std::cout].  Reporting returns; it is not a call into a component. *)
Inductive LogLine : Type :=
| InitializationError (component reason : string)
    (* utils::ErrorHandler::handleInitializationError(SERVER_PREFIX, ..) *)
| SystemError (msg : Message) (severity : Severity)
    (* utils::ErrorHandler::handleSystemError(SERVER_PREFIX, ..) *)
| ExceptionReport (context : Message) (severity : Severity)
    (* utils::ErrorHandler::handleException(SERVER_PREFIX, .., e, ..) *)
| Status (msg : Message)
    (* std::cout << SERVER_PREFIX << " " << msg ... *)
| Note (text : string).
    (* std::cout << "[" << COMPONENT_NAME << "] " << text *)

(** What a lifecycle call does that an observer can see, in program
    order: calls issued to components, stores to the shared flags, and
    log lines. *)
Inductive Event : Type :=
| Call (c : Component) (m : Method)
| Store (f : Flag) (b : bool)
| Log (l : LogLine).

(** The memory the functions read and write: the two atomics passed by
    reference, and the three locals of [start] (its start-state ledger),
    which the [catch] block of [start] reads after the [try] block wrote
    them. *)
Record Memory : Type := {
  running : bool;
  shutdown_requested : bool;
  connection_acceptor_started : bool;
  message_broadcaster_started : bool;
  statistics_collector_started : bool
}.

Definition set_running (b : bool) (m : Memory) : Memory :=
  {| running := b;
     shutdown_requested := shutdown_requested m;
     connection_acceptor_started := connection_acceptor_started m;
     message_broadcaster_started := message_broadcaster_started m;
     statistics_collector_started := statistics_collector_started m |}.

Definition set_shutdown_requested (b : bool) (m : Memory) : Memory :=
  {| running := running m;
     shutdown_requested := b;
     connection_acceptor_started := connection_acceptor_started m;
     message_broadcaster_started := message_broadcaster_started m;
     statistics_collector_started := statistics_collector_started m |}.

Definition set_connection_acceptor_started (b : bool) (m : Memory) : Memory :=
  {| running := running m;
     shutdown_requested := shutdown_requested m;
     connection_acceptor_started := b;
     message_broadcaster_started := message_broadcaster_started m;
     statistics_collector_started := statistics_collector_started m |}.

Definition set_message_broadcaster_started (b : bool) (m : Memory) : Memory :=
  {| running := running m;
     shutdown_requested := shutdown_requested m;
     connection_acceptor_started := connection_acceptor_started m;
     message_broadcaster_started := b;
     statistics_collector_started := statistics_collector_started m |}.

Definition set_statistics_collector_started (b : bool) (m : Memory) : Memory :=
  {| running := running m;
     shutdown_requested := shutdown_requested m;
     connection_acceptor_started := connection_acceptor_started m;
     message_broadcaster_started := message_broadcaster_started m;
     statistics_collector_started := b |}.

(** *** The effect monad *)

(** Why a call did not come back to its caller at all. *)
Inductive Crash : Type :=
| NullDereference      (* [p->f()] on an empty smart pointer: undefined *)
| NoexceptViolation.   (* an exception left a [noexcept] function: std::terminate *)

Inductive Result (A : Type) : Type :=
| Returned (a : A)
| Thrown (e : Exn)
| Crashed (c : Crash).

Arguments Thrown {A} e.
Arguments Crashed {A} c.

(** A computation maps the memory to a result, the memory it leaves and
    the events it produced. *)
Definition M (A : Type) : Type := Memory -> Result A * Memory * list Event.

Definition ret {A} (a : A) : M A := fun m => (Returned a, m, []).

Definition bind {A B} (x : M A) (k : A -> M B) : M B :=
  fun m =>
    match x m with
    | (Returned a, m1, e1) =>
        match k a m1 with (r, m2, e2) => (r, m2, e1 ++ e2) end
    | (Thrown e, m1, e1) => (Thrown e, m1, e1)
    | (Crashed c, m1, e1) => (Crashed c, m1, e1)
    end.

Declare Scope lifecycle_scope.
Delimit Scope lifecycle_scope with lifecycle.
Notation "x <- c ;; k" := (bind c (fun x => k))
  (at level 100, c at next level, right associativity) : lifecycle_scope.
Notation "c ;; k" := (bind c (fun _ => k))
  (at level 100, right associativity) : lifecycle_scope.
Open Scope lifecycle_scope.

Definition emit (e : Event) : M unit := fun m => (Returned tt, m, [e]).
Definition log (l : LogLine) : M unit := emit (Log l).
Definition read {A} (f : Memory -> A) : M A := fun m => (Returned (f m), m, []).
Definition write (f : Memory -> Memory) : M unit :=
  fun m => (Returned tt, f m, []).

(** [try { body } catch (<filter>) { handler }]. *)
Definition try_catch {A} (body : M A) (catches : Exn -> bool) (handler : M A)
  : M A :=
  fun m =>
    match body m with
    | (Thrown e, m1, e1) =>
        if catches e
        then match handler m1 with (r, m2, e2) => (r, m2, e1 ++ e2) end
        else (Thrown e, m1, e1)
    | other => other
    end.

(** [catch (const std::exception& e)] *)
Definition std_exception (e : Exn) : bool :=
  match e with StdException => true | OtherException => false end.

(** [catch (...)] *)
Definition any_exception (e : Exn) : bool := true.

(** A function declared [noexcept]: an exception that reaches its boundary
    ends the process. *)
Definition noexcept {A} (body : M A) : M A :=
  fun m =>
    match body m with
    | (Thrown _, m1, e1) => (Crashed NoexceptViolation, m1, e1)
    | other => other
    end.

Definition events {A} (x : Result A * Memory * list Event) : list Event :=
  snd x.
Definition memory {A} (x : Result A * Memory * list Event) : Memory :=
  snd (fst x).
Definition result {A} (x : Result A * Memory * list Event) : Result A :=
  fst (fst x).

Section Manager.

Variable w : World.

(** [c->m()]: undefined on an empty pointer, otherwise the call is issued
    and does what the component does. *)
Definition invoke (c : Component) (m : Method) : M bool :=
  fun mem =>
    if present w c
    then match behaviour w c m with
         | Returns b => (Returned b, mem, [Call c m])
         | Throws e => (Thrown e, mem, [Call c m])
         end
    else (Crashed NullDereference, mem, []).

(** [if (ptr) { body }] *)
Definition if_set (c : Component) (body : M unit) : M unit :=
  if present w c then body else ret tt.

(** [running.load()], [running.store(b)], [shutdown_requested.store(b)] *)
Definition load_running : M bool := read running.
Definition store_running (b : bool) : M unit :=
  write (set_running b) ;; emit (Store Running b).
Definition store_shutdown_requested (b : bool) : M unit :=
  write (set_shutdown_requested b) ;; emit (Store ShutdownRequested b).

(** [ServerLifecycleManager::initialize] *)
Definition initialize : M bool :=
  try_catch
    (ok <- invoke ConnectionAcceptor Initialize ;;
     if negb ok then
       log (InitializationError "connection_acceptor"
              "Connection acceptor initialization failed") ;;
       ret false
     else
     ok <- invoke MessageBroadcaster Initialize ;;
     if negb ok then
       log (InitializationError "message_broadcaster"
              "Message broadcaster initialization failed") ;;
       ret false
     else
     ok <- invoke StatisticsCollector Initialize ;;
     if negb ok then
       log (InitializationError "statistics_collector"
              "Statistics collector initialization failed") ;;
       ret false
     else
     invoke ConnectionAcceptor SetAcceptCallback ;;
     invoke ConnectionAcceptor SetErrorCallback ;;
     invoke SessionManager SetSessionCallback ;;
     invoke MessageBroadcaster SetBroadcastCallback ;;
     log (Status SERVER_INITIALIZED) ;;
     ret true)
    std_exception
    (log (ExceptionReport INIT_FAILED_EXCEPTION FATAL) ;;
     ret false).

(** [ServerLifecycleManager::rollbackStartedComponents] *)
Definition rollbackStartedComponents
    (connection_acceptor_started' message_broadcaster_started'
     statistics_collector_started' : bool) : M unit :=
  noexcept
    (try_catch
       ((if statistics_collector_started' && present w StatisticsCollector
         then invoke StatisticsCollector Stop ;;
              log (Note "Rolled back statistics collector")
         else ret tt) ;;
        (if message_broadcaster_started' && present w MessageBroadcaster
         then invoke MessageBroadcaster Stop ;;
              log (Note "Rolled back message broadcaster")
         else ret tt) ;;
        (if connection_acceptor_started' && present w ConnectionAcceptor
         then invoke ConnectionAcceptor Stop ;;
              log (Note "Rolled back connection acceptor")
         else ret tt) ;;
        log (Note "Component rollback completed successfully"))
       any_exception
       (log (Note "CRITICAL: Rollback failed - components may be in inconsistent state"))).

(** The call [rollbackStartedComponents(connection_acceptor_started,
    message_broadcaster_started, statistics_collector_started)] on the
    current values of the three locals. *)
Definition rollback_from_ledger : M unit :=
  a <- read connection_acceptor_started ;;
  b <- read message_broadcaster_started ;;
  c <- read statistics_collector_started ;;
  rollbackStartedComponents a b c.

(** [ServerLifecycleManager::start] *)
Definition start : M bool :=
  r <- load_running ;;
  if r then
    log (SystemError SERVER_ALREADY_RUNNING WARNING) ;;
    ret true
  else
  write (set_connection_acceptor_started false) ;;
  write (set_message_broadcaster_started false) ;;
  write (set_statistics_collector_started false) ;;
  try_catch
    (ok <- invoke ConnectionAcceptor Start ;;
     if negb ok then
       log (SystemError (Literal "Connection acceptor start failed") ERROR) ;;
       ret false
     else
     write (set_connection_acceptor_started true) ;;
     ok <- invoke MessageBroadcaster Start ;;
     if negb ok then
       log (SystemError (Literal "Message broadcaster start failed") ERROR) ;;
       rollback_from_ledger ;;
       ret false
     else
     write (set_message_broadcaster_started true) ;;
     ok <- invoke StatisticsCollector Start ;;
     if negb ok then
       log (SystemError (Literal "Statistics collector start failed") ERROR) ;;
       rollback_from_ledger ;;
       ret false
     else
     write (set_statistics_collector_started true) ;;
     store_running true ;;
     log (Status SERVER_STARTED) ;;
     ret true)
    std_exception
    (log (ExceptionReport START_FAILED_EXCEPTION FATAL) ;;
     rollback_from_ledger ;;
     ret false).

(** [ServerLifecycleManager::stop] *)
Definition stop : M unit :=
  r <- load_running ;;
  if negb r then ret tt
  else
  log (Status STOPPING_SERVER) ;;
  store_shutdown_requested true ;;
  store_running false ;;
  if_set ConnectionAcceptor (invoke ConnectionAcceptor Stop ;; ret tt) ;;
  if_set MessageBroadcaster (invoke MessageBroadcaster Stop ;; ret tt) ;;
  if_set SessionManager (invoke SessionManager CloseAllSessions ;; ret tt) ;;
  if_set StatisticsCollector (invoke StatisticsCollector Stop ;; ret tt) ;;
  log (Status SERVER_STOPPED).

End Manager.


(** *** Reading a run *)

(** The component calls of a run, in the order they were issued. *)
Definition calls (evs : list Event) : list (Component * Method) :=
  flat_map (fun e => match e with Call c m => [(c, m)] | _ => [] end) evs.

(** The components whose [stop()] was called, in call order. *)
Definition stops (evs : list Event) : list Component :=
  flat_map (fun e => match e with Call c Stop => [c] | _ => [] end) evs.

(** The components whose [initialize()] was called, in call order. *)
Definition initializations (evs : list Event) : list Component :=
  flat_map (fun e => match e with Call c Initialize => [c] | _ => [] end) evs.

Definition is_registration (m : Method) : bool :=
  match m with
  | SetAcceptCallback | SetErrorCallback
  | SetSessionCallback | SetBroadcastCallback => true
  | _ => false
  end.

(** The callback registrations issued, in call order.  The manager reaches
    a component's callback slots through these four setters only, so a run
    without them leaves every registration as it was. *)
Definition registrations (evs : list Event) : list (Component * Method) :=
  filter (fun cm => is_registration (snd cm)) (calls evs).

(** *** Reading a world *)

Definition returns_true (o : Outcome) : bool :=
  match o with Returns true => true | _ => false end.

Definition returns (o : Outcome) : bool :=
  match o with Returns _ => true | Throws _ => false end.

(** [c->m()] is made on a live component and returns [true]. *)
Definition succeeds (w : World) (m : Method) (c : Component) : bool :=
  present w c && returns_true (behaviour w c m).

(** [c->m()] is made on a live component and returns [false]. *)
Definition returns_false (w : World) (m : Method) (c : Component) : bool :=
  present w c &&
  match behaviour w c m with Returns false => true | _ => false end.

(** [c->m()] is made on a live component and returns [false] or throws. *)
Definition fails (w : World) (m : Method) (c : Component) : bool :=
  present w c && negb (returns_true (behaviour w c m)).

(** [c->m()] is made on a live component and returns [false] or throws
    something derived from [std::exception]. *)
Definition fails_std (w : World) (m : Method) (c : Component) : bool :=
  present w c &&
  match behaviour w c m with
  | Returns false | Throws StdException => true
  | _ => false
  end.

Fixpoint take_while {A} (p : A -> bool) (l : list A) : list A :=
  match l with
  | [] => []
  | x :: l' => if p x then x :: take_while p l' else []
  end.

Fixpoint drop_while {A} (p : A -> bool) (l : list A) : list A :=
  match l with
  | [] => []
  | x :: l' => if p x then drop_while p l' else l
  end.

(** The order in which [initialize] and [start] go through the components. *)
Definition start_order : list Component :=
  [ConnectionAcceptor; MessageBroadcaster; StatisticsCollector].

(** The components whose [start()] has succeeded when the start sequence
    ends: the longest prefix of the start order whose calls return [true]. *)
Definition started_components (w : World) : list Component :=
  take_while (succeeds w Start) start_order.

Definition all_started (w : World) : bool :=
  forallb (succeeds w Start) start_order.

(** The component at which the start sequence fails, when its [start()]
    returns [false] or throws. *)
Definition start_failure (w : World) : option Component :=
  match drop_while (succeeds w Start) start_order with
  | c :: _ => if fails w Start c then Some c else None
  | [] => None
  end.

(** The stop calls issued when the components of [l] are stopped one after
    the other and a throwing [stop()] ends the sequence. *)
Fixpoint until_throw (w : World) (l : list Component) : list Component :=
  match l with
  | [] => []
  | c :: l' =>
      match behaviour w c Stop with
      | Returns _ => c :: until_throw w l'
      | Throws _ => [c]
      end
  end.

(** The order in which [stop] shuts the components down. *)
Definition stop_plan : list (Component * Method) :=
  [(ConnectionAcceptor, Stop); (MessageBroadcaster, Stop);
   (SessionManager, CloseAllSessions); (StatisticsCollector, Stop)].

(** The calls issued when a plan is carried out with empty pointers skipped
    and no handler around the calls: a throwing call is the last one. *)
Fixpoint carried_out (w : World) (plan : list (Component * Method))
  : list (Component * Method) :=
  match plan with
  | [] => []
  | (c, m) :: rest =>
      if present w c
      then match behaviour w c m with
           | Returns _ => (c, m) :: carried_out w rest
           | Throws _ => [(c, m)]
           end
      else carried_out w rest
  end.

Definition plan_unhindered (w : World) (plan : list (Component * Method))
  : bool :=
  forallb (fun cm => present w (fst cm) && returns (behaviour w (fst cm) (snd cm)))
          plan.

(** The calls of a plan that are made: those on a pointer that is set. *)
Definition plan_on_present (w : World) (plan : list (Component * Method))
  : list (Component * Method) :=
  filter (fun cm => present w (fst cm)) plan.

(** Every call of the plan that is made returns. *)
Definition plan_returns (w : World) (plan : list (Component * Method)) : bool :=
  forallb (fun cm => negb (present w (fst cm))
                     || returns (behaviour w (fst cm) (snd cm))) plan.

(** *** Sample worlds *)

(** Every pointer set, every call returns [true]. *)
Definition healthy : World :=
  {| present := fun _ => true; behaviour := fun _ _ => Returns true |}.

(** [w] with the behaviour of [c->m()] replaced by [o]. *)
Definition override (w : World) (c : Component) (m : Method) (o : Outcome)
  : World :=
  {| present := present w;
     behaviour := fun c' m' =>
       if Component_beq c c' && Method_beq m m' then o else behaviour w c' m' |}.

(** [w] with the pointer to [c] empty. *)
Definition without (w : World) (c : Component) : World :=
  {| present := fun c' => if Component_beq c c' then false else present w c';
     behaviour := behaviour w |}.

Definition fresh : Memory :=
  {| running := false; shutdown_requested := false;
     connection_acceptor_started := false;
     message_broadcaster_started := false;
     statistics_collector_started := false |}.

Definition serving : Memory := set_running true fresh.


(** *** Derived runs and readings used by the properties *)

(** [stop] called twice in a row (the second time possibly finding the
    components behaving differently): the memory left and everything that
    was observed. *)
Definition stop_twice (w w' : World) (m : Memory) : Memory * list Event :=
  let first := stop w m in
  let second := stop w' (memory first) in
  (memory second, events first ++ events second).

(** The component at which [initialize] gives up because its
    [initialize()] returned [false]. *)
Definition first_refusal (w : World) : option Component :=
  match drop_while (succeeds w Initialize) start_order with
  | c :: _ => if returns_false w Initialize c then Some c else None
  | [] => None
  end.

(** The components initialized successfully before [initialize] ends. *)
Definition initialized_components (w : World) : list Component :=
  take_while (succeeds w Initialize) start_order.

Definition all_initialized (w : World) : bool :=
  forallb (succeeds w Initialize) start_order.

(** [c] was started in a run: its [start()] was called and returned
    [true] (after which [start] sets its start-success flag). *)
Definition started_in_run (w : World) (evs : list Event) (c : Component)
  : Prop :=
  In (Call c Start) evs /\ behaviour w c Start = Returns true.

(** The registrations that took effect: the setter was called and
    returned. *)
Definition wired (w : World) (evs : list Event) : list (Component * Method) :=
  filter (fun cm => returns (behaviour w (fst cm) (snd cm))) (registrations evs).

(** The line the rollback prints after it has stopped [c]. *)
Definition rolled_back (c : Component) : option LogLine :=
  match c with
  | StatisticsCollector => Some (Note "Rolled back statistics collector")
  | MessageBroadcaster => Some (Note "Rolled back message broadcaster")
  | ConnectionAcceptor => Some (Note "Rolled back connection acceptor")
  | SessionManager => None
  end.

Definition rollback_failed : LogLine :=
  Note "CRITICAL: Rollback failed - components may be in inconsistent state".

Definition rollback_completed : LogLine :=
  Note "Component rollback completed successfully".

(** What [rollbackStartedComponents] goes through: the reverse of the
    start order. *)
Definition rollback_order : list Component :=
  [StatisticsCollector; MessageBroadcaster; ConnectionAcceptor].

(** What is observed when the components of [l] are rolled back one after
    the other: each is stopped and reported, a [stop()] that throws ends
    the rollback with the critical line. *)
Fixpoint rollback_events (w : World) (l : list Component) : list Event :=
  match l with
  | [] => [Log rollback_completed]
  | c :: l' =>
      Call c Stop ::
      match behaviour w c Stop with
      | Returns _ =>
          match rolled_back c with
          | Some line => Log line :: rollback_events w l'
          | None => rollback_events w l'
          end
      | Throws _ => [Log rollback_failed]
      end
  end.

(** The start-success flag of [c] among the three arguments of
    [rollbackStartedComponents]. *)
Definition ledger_flag (connection_acceptor_started' message_broadcaster_started'
                        statistics_collector_started' : bool) (c : Component)
  : bool :=
  match c with
  | ConnectionAcceptor => connection_acceptor_started'
  | MessageBroadcaster => message_broadcaster_started'
  | StatisticsCollector => statistics_collector_started'
  | SessionManager => false
  end.

(** The components the rollback stops: those whose flag is true and whose
    pointer is set, in rollback order. *)
Definition rollback_targets (w : World) (a b c : bool) : list Component :=
  filter (fun x => ledger_flag a b c x && present w x) rollback_order.

(** *** The statements of the specification that the code does not meet
        as they are worded *)

(** "On any step's failure, rollback covers exactly the steps that
    succeeded, in reverse order, then start returns failure." *)
Definition rollback_stops_all_started (w : World) (m : Memory) : Prop :=
  result (start w m) = Returned false /\
  running (memory (start w m)) = false /\
  stops (events (start w m)) = rev (started_components w).

(** "When running, stop stops acceptor, broadcaster, sessions, collector." *)
Definition stop_carries_out_whole_plan (w : World) (m : Memory) : Prop :=
  calls (events (stop w m)) = stop_plan.

(** "On every failing initialize call no callback is wired." *)
Definition failed_initialize_wires_nothing (w : World) (m : Memory) : Prop :=
  result (initialize w m) = Returned false ->
  wired w (events (initialize w m)) = [].

(** "For some call of start, rollback logs 'Rolled back X' for a component
    X that was never started during that call." *)
Definition rollback_logged_for_unstarted : Prop :=
  exists (w : World) (m : Memory) (c : Component) (l : LogLine),
    rolled_back c = Some l /\
    In (Log l) (events (start w m)) /\
    ~ started_in_run w (events (start w m)) c.

(** Worlds used as concrete inputs. *)

(** The collector refuses to start and the broadcaster's [stop()] throws
    while it is rolled back. *)
Definition broadcaster_stop_throws_in_rollback : World :=
  override (override healthy StatisticsCollector Start (Returns false))
           MessageBroadcaster Stop (Throws StdException).

(** The broadcaster's [start()] throws something that is not a
    [std::exception]. *)
Definition broadcaster_start_throws_other : World :=
  override healthy MessageBroadcaster Start (Throws OtherException).

(** The acceptor's [stop()] throws. *)
Definition acceptor_stop_throws : World :=
  override healthy ConnectionAcceptor Stop (Throws StdException).

(** Registering the error callback throws. *)
Definition error_callback_registration_throws : World :=
  override healthy ConnectionAcceptor SetErrorCallback (Throws StdException).

End Lifecycle.

(* ===================================================================== *)
(** ** The process entry point *)
(* ===================================================================== *)

Module Main.

Open Scope string_scope.
Open Scope list_scope.
Open Scope Z_scope.

(** What a blocking call does: [run()] returns once [stop()] has been
    requested, and not before. *)
Inductive Blocking : Type :=
| Completes
| Raises (e : Lifecycle.Exn)
| NeverReturns.

(** The master controller as [main] sees it: what its three lifecycle
    calls do, and the values its [const] queries hand back (these only
    feed the log). *)
Record MasterController : Type := {
  initialize : Lifecycle.Outcome;
  start : Lifecycle.Outcome;
  run : Blocking;
  getSystemState : Z;
  isHealthy : bool;
  active_connections : Z
}.

(** The lines [main] writes to [std::cout]. *)
Inductive Output : Type :=
| Banner               (* version, Boost versions, build type, port, baud rate *)
| ConfigurationTest    (* servo range, sensor range, target latency *)
| TestDataPoint        (* the [SonarDataPoint] built from the test constants *)
| Say (text : string)
| ControllerState (state : Z)
| SystemHealthy (healthy : bool)
| FinalMetrics (active : Z).

(** How the process ends. *)
Inductive Ending : Type :=
| Exit (code : Z)      (* [return code;] from [main] *)
| Terminate            (* an exception left [main]: std::terminate *)
| Hang.                (* [run()] never came back *)

Definition prologue : list Output :=
  [Banner; ConfigurationTest; TestDataPoint;
   Say "=== Phase 2: Military-Grade Master Controller Test ===";
   Say "Initializing master controller..."].

(** [main] *)
Definition main (controller : MasterController) : Ending * list Output :=
  match initialize controller with
  | Lifecycle.Throws _ => (Terminate, prologue)
  | Lifecycle.Returns false =>
      (Exit 1, prologue ++ [Say "❌ Controller initialization failed"])
  | Lifecycle.Returns true =>
      let out := prologue ++ [Say "Starting controller..."] in
      match start controller with
      | Lifecycle.Throws _ => (Terminate, out)
      | Lifecycle.Returns false =>
          (Exit 1, out ++ [Say "❌ Controller start failed"])
      | Lifecycle.Returns true =>
          let out :=
            out ++ [ControllerState (getSystemState controller);
                    SystemHealthy (isHealthy controller);
                    Say "Running controller in production mode - Ctrl+C to stop..."] in
          match run controller with
          | Raises _ => (Terminate, out)
          | NeverReturns => (Hang, out)
          | Completes =>
              (Exit 0,
               out ++ [FinalMetrics (active_connections controller);
                       Say "✅ Master controller test complete";
                       Say "✅ Phase 2 Step 1 Complete - Event loop operational"])
          end
      end
  end.

Definition exit_status (x : Ending * list Output) : Ending := fst x.

(** A controller that comes up, serves and is stopped. *)
Definition well_behaved : MasterController :=
  {| initialize := Lifecycle.Returns true;
     start := Lifecycle.Returns true;
     run := Completes;
     getSystemState := 2;
     isHealthy := true;
     active_connections := 0 |}.

Definition with_initialize (o : Lifecycle.Outcome) (c : MasterController)
  : MasterController :=
  {| initialize := o; start := start c; run := run c;
     getSystemState := getSystemState c; isHealthy := isHealthy c;
     active_connections := active_connections c |}.

Definition with_start (o : Lifecycle.Outcome) (c : MasterController)
  : MasterController :=
  {| initialize := initialize c; start := o; run := run c;
     getSystemState := getSystemState c; isHealthy := isHealthy c;
     active_connections := active_connections c |}.

End Main.


(* ===================================================================== *)
(** ** Sequences of lifecycle calls *)
(* ===================================================================== *)

Module Script.

Import Lifecycle.
Open Scope list_scope.

(** The three public operations of the lifecycle manager. *)
Inductive Operation : Type := CallInitialize | CallStart | CallStop.

(** One call made by the owner of the manager, in the world it finds:
    how the call ends, the memory it leaves and what is observed. *)
Definition perform (op : Operation) (w : World) (m : Memory)
  : Result unit * Memory * list Event :=
  match op with
  | CallInitialize =>
      match initialize w m with
      | (Returned _, m', evs) => (Returned tt, m', evs)
      | (Thrown e, m', evs) => (Thrown e, m', evs)
      | (Crashed c, m', evs) => (Crashed c, m', evs)
      end
  | CallStart =>
      match start w m with
      | (Returned _, m', evs) => (Returned tt, m', evs)
      | (Thrown e, m', evs) => (Thrown e, m', evs)
      | (Crashed c, m', evs) => (Crashed c, m', evs)
      end
  | CallStop => stop w m
  end.

(** A sequence of calls, each in its own world.  The owner goes on after
    a call that returned or whose exception it caught; a crash ends the
    process and with it the sequence. *)
Fixpoint perform_all (script : list (Operation * World)) (m : Memory)
  : Memory * list Event :=
  match script with
  | [] => (m, [])
  | (op, w) :: rest =>
      match perform op w m with
      | (Crashed _, m1, e1) => (m1, e1)
      | (_, m1, e1) =>
          let (m2, e2) := perform_all rest m1 in (m2, e1 ++ e2)
      end
  end.

(** The number of stores of [b] into the running flag. *)
Definition running_stores (b : bool) (evs : list Event) : nat :=
  List.length (filter (fun e => match e with
                           | Store Running b' => Bool.eqb b b'
                           | _ => false
                           end) evs).

Definition flag_value (b : bool) : nat := if b then 1 else 0.

(** The error reports of a run: what went through [utils::ErrorHandler]. *)
Definition reports (evs : list Event) : list LogLine :=
  flat_map (fun e => match e with
                     | Log (InitializationError c r) => [InitializationError c r]
                     | Log (SystemError t s) => [SystemError t s]
                     | Log (ExceptionReport t s) => [ExceptionReport t s]
                     | _ => []
                     end) evs.

(** The four registrations of [initialize], in the order it makes them. *)
Definition callback_plan : list (Component * Method) :=
  [(ConnectionAcceptor, SetAcceptCallback);
   (ConnectionAcceptor, SetErrorCallback);
   (SessionManager, SetSessionCallback);
   (MessageBroadcaster, SetBroadcastCallback)].

(** The lines a run logs, in order. *)
Definition logs (evs : list Event) : list LogLine :=
  flat_map (fun e => match e with Log l => [l] | _ => [] end) evs.

(** The "Rolled back X" lines for the components of [l]. *)
Definition rolled_back_lines (l : list Component) : list LogLine :=
  flat_map (fun c => match rolled_back c with Some line => [line] | None => [] end) l.

(** The components of [l] whose [stop()] returns, up to the first one
    whose [stop()] throws. *)
Fixpoint stopped_before_throw (w : World) (l : list Component)
  : list Component :=
  match l with
  | [] => []
  | c :: l' =>
      match behaviour w c Stop with
      | Returns _ => c :: stopped_before_throw w l'
      | Throws _ => []
      end
  end.

(** No [stop()] of the components of [l] throws. *)
Definition stops_return (w : World) (l : list Component) : bool :=
  forallb (fun c => returns (behaviour w c Stop)) l.


End Script.

(* ===================================================================== *)
(** ** The desktop client's main window *)
(* ===================================================================== *)

(** [frontend/src/ui/MainWindow.cpp], with the client interface of
    [frontend/include/network/IWebSocketClient.h].  The window creates its
    widgets, connects two signals of the WebSocket client to handlers and
    asks the client to connect; afterwards it only reacts to signals.
    What it does to the widgets, to Qt and to the client is recorded as a
    sequence of actions.  The JSON parser and the data point type belong
    to other units and enter as parameters. *)

Module Window.

Open Scope string_scope.
Open Scope list_scope.

(** [IWebSocketClient::State] *)
Inductive State : Type := Disconnected | Connecting | Connected | Closing.

(** The signals of [IWebSocketClient]. *)
Inductive Signal : Type :=
| connected
| disconnected
| stateChanged (state : State)
| textMessageReceived (message : string)
| binaryMessageReceived (data : string)
| errorOccurred (errorString : string)
| reconnectScheduled (attemptNumber delayMs : Z).

(** [ConnectionStatusWidget::ConnectionState], the enumerators the window
    uses. *)
Inductive ConnectionState : Type := DISCONNECTED | CONNECTING | CONNECTED.

(** [SonarDataParser::ParseResult]: [SUCCESS], or one of the failure
    kinds of the parser. *)
Inductive ParseResult (FailureKind : Type) : Type :=
| SUCCESS
| Failure (kind : FailureKind).

Arguments SUCCESS {FailureKind}.
Arguments Failure {FailureKind} kind.

(** The objects the window creates. *)
Inductive Widget : Type :=
| TheMainLayout          (* new MainLayout(this) *)
| CentralWidget          (* new QWidget(this) *)
| ConnectionStatus       (* new ConnectionStatusWidget(this) *)
| SonarData              (* new SonarDataWidget(this) *)
| SonarVisualization     (* new SonarVisualizationWidget(this) *)
| ControlPanel           (* PanelFactory::createPlaceholder("CONTROL PANEL", this) *)
| SonarPanel             (* PanelFactory::createPanel(PanelType::SONAR, this) *)
| DataPanel              (* PanelFactory::createPanel(PanelType::DATA, this) *)
| PerformancePanel       (* PanelFactory::createPlaceholder("PERFORMANCE METRICS", this) *)
| WebSocketClient.       (* new Network::WebSocketClient(this) *)

Scheme Equality for Widget.

Inductive Margin : Type := NoMargin | PANEL_MARGIN.

(** The panel styles of [Theme] the window applies. *)
Inductive Style : Type :=
| ControlPanelStyle | SonarPanelStyle | DataPanelStyle | PerformancePanelStyle.

(** The four places of [MainLayout]. *)
Inductive Place : Type := ControlPlace | CenterPlace | DataPlace | PerformancePlace.

(** The two connections the window makes. *)
Inductive Connection : Type := StateChangedHandler | TextMessageHandler.

Inductive DebugLine : Type :=
| MessageReceived (message : string)
| SonarDataReceived (text : string)
| ParseFailed (description message : string).

(** What the window does, in program order.  A [QVBoxLayout] is named by
    the widget it was created on; a pointer handed to Qt may be null. *)
Inductive Action (SonarDataPoint : Type) : Type :=
| SetWindowTitle (title : string)
| Resize                                   (* WINDOW_WIDTH, WINDOW_HEIGHT *)
| SetMinimumSize                           (* MIN_WINDOW_WIDTH, MIN_WINDOW_HEIGHT *)
| Create (w : Widget)
| CreateLayout (owner : Widget)
| SetContentsMargins (owner : Widget) (margin : Margin)
| SetSpacing (owner : Widget)
| AddWidget (owner : Widget) (child : option Widget)
| AddStretch (owner : Widget)
| SetCentralWidget (w : Widget)
| ApplyToApplication                       (* Theme::applyToApplication(this) *)
| ApplyStyle (style : Style) (panel : Widget)
| SetPlace (place : Place) (w : Widget)
| UpdateConnectionState (state : ConnectionState)
| UpdateServerAddress (address : string)
| Connect (c : Connection)
| ConnectToServer                          (* Constants::Network::BACKEND_URL *)
| UpdateSonarData (target : Widget) (point : SonarDataPoint)
| QDebug (line : DebugLine).

Arguments SetWindowTitle {SonarDataPoint} title.
Arguments Resize {SonarDataPoint}.
Arguments SetMinimumSize {SonarDataPoint}.
Arguments Create {SonarDataPoint} w.
Arguments CreateLayout {SonarDataPoint} owner.
Arguments SetContentsMargins {SonarDataPoint} owner margin.
Arguments SetSpacing {SonarDataPoint} owner.
Arguments AddWidget {SonarDataPoint} owner child.
Arguments AddStretch {SonarDataPoint} owner.
Arguments SetCentralWidget {SonarDataPoint} w.
Arguments ApplyToApplication {SonarDataPoint}.
Arguments ApplyStyle {SonarDataPoint} style panel.
Arguments SetPlace {SonarDataPoint} place w.
Arguments UpdateConnectionState {SonarDataPoint} state.
Arguments UpdateServerAddress {SonarDataPoint} address.
Arguments Connect {SonarDataPoint} c.
Arguments ConnectToServer {SonarDataPoint}.
Arguments UpdateSonarData {SonarDataPoint} target point.
Arguments QDebug {SonarDataPoint} line.

(** The window's members, and the connections made on the client's
    signals so far. *)
Record MainWindow : Type := {
  m_mainLayout : option Widget;
  m_connectionStatus : option Widget;
  m_sonarDataWidget : option Widget;
  m_sonarVisualizationWidget : option Widget;
  m_webSocketClient : option Widget;
  connections : list Connection
}.

(** The member initializers of the constructor. *)
Definition uninitialized : MainWindow :=
  {| m_mainLayout := None; m_connectionStatus := None;
     m_sonarDataWidget := None; m_sonarVisualizationWidget := None;
     m_webSocketClient := None; connections := [] |}.

Definition set_mainLayout (p : Widget) (s : MainWindow) : MainWindow :=
  {| m_mainLayout := Some p; m_connectionStatus := m_connectionStatus s;
     m_sonarDataWidget := m_sonarDataWidget s;
     m_sonarVisualizationWidget := m_sonarVisualizationWidget s;
     m_webSocketClient := m_webSocketClient s; connections := connections s |}.

Definition set_connectionStatus (p : Widget) (s : MainWindow) : MainWindow :=
  {| m_mainLayout := m_mainLayout s; m_connectionStatus := Some p;
     m_sonarDataWidget := m_sonarDataWidget s;
     m_sonarVisualizationWidget := m_sonarVisualizationWidget s;
     m_webSocketClient := m_webSocketClient s; connections := connections s |}.

Definition set_sonarDataWidget (p : Widget) (s : MainWindow) : MainWindow :=
  {| m_mainLayout := m_mainLayout s; m_connectionStatus := m_connectionStatus s;
     m_sonarDataWidget := Some p;
     m_sonarVisualizationWidget := m_sonarVisualizationWidget s;
     m_webSocketClient := m_webSocketClient s; connections := connections s |}.

Definition set_sonarVisualizationWidget (p : Widget) (s : MainWindow)
  : MainWindow :=
  {| m_mainLayout := m_mainLayout s; m_connectionStatus := m_connectionStatus s;
     m_sonarDataWidget := m_sonarDataWidget s;
     m_sonarVisualizationWidget := Some p;
     m_webSocketClient := m_webSocketClient s; connections := connections s |}.

Definition set_webSocketClient (p : Widget) (s : MainWindow) : MainWindow :=
  {| m_mainLayout := m_mainLayout s; m_connectionStatus := m_connectionStatus s;
     m_sonarDataWidget := m_sonarDataWidget s;
     m_sonarVisualizationWidget := m_sonarVisualizationWidget s;
     m_webSocketClient := Some p; connections := connections s |}.

Definition add_connection (c : Connection) (s : MainWindow) : MainWindow :=
  {| m_mainLayout := m_mainLayout s; m_connectionStatus := m_connectionStatus s;
     m_sonarDataWidget := m_sonarDataWidget s;
     m_sonarVisualizationWidget := m_sonarVisualizationWidget s;
     m_webSocketClient := m_webSocketClient s;
     connections := c :: connections s |}.

Definition is_connected (c : Connection) (s : MainWindow) : bool :=
  existsb (fun c' => match c, c' with
                     | StateChangedHandler, StateChangedHandler => true
                     | TextMessageHandler, TextMessageHandler => true
                     | _, _ => false
                     end) (connections s).

(** The switch of the state-changed handler. *)
Definition widget_state_of (state : State) : ConnectionState :=
  match state with
  | Disconnected => DISCONNECTED
  | Connecting => CONNECTING
  | Connected => CONNECTED
  | Closing => DISCONNECTED
  end.

Section Handlers.

Variable SonarDataPoint : Type.
Variable FailureKind : Type.

(** [SonarDataParser::parseJsonText(message, sonarData)]: the result, and
    what it leaves in the default-constructed [sonarData]. *)
Variable parseJsonText : string -> ParseResult FailureKind * SonarDataPoint.

(** [SonarDataPoint::toString] and [SonarDataParser::getErrorDescription] *)
Variable toString : SonarDataPoint -> string.
Variable getErrorDescription : ParseResult FailureKind -> string.

(** A step of the window: [None] when it dereferences a null member. *)
Definition UI (A : Type) : Type :=
  MainWindow -> option A * MainWindow * list (Action SonarDataPoint).

Definition done {A} (a : A) : UI A := fun s => (Some a, s, []).

Definition and_then {A B} (x : UI A) (k : A -> UI B) : UI B :=
  fun s =>
    match x s with
    | (Some a, s1, a1) =>
        match k a s1 with (r, s2, a2) => (r, s2, a1 ++ a2) end
    | (None, s1, a1) => (None, s1, a1)
    end.

Notation "x <- c ;; k" := (and_then c (fun x => k))
  (at level 100, c at next level, right associativity).
Notation "c ;; k" := (and_then c (fun _ => k))
  (at level 100, right associativity).

Definition act (a : Action SonarDataPoint) : UI unit :=
  fun s => (Some tt, s, [a]).

Definition assign (f : MainWindow -> MainWindow) : UI unit :=
  fun s => (Some tt, f s, []).

(** The value of a member, which may be null. *)
Definition pointer (member : MainWindow -> option Widget) : UI (option Widget) :=
  fun s => (Some (member s), s, []).

(** [member->...]: the object a member points to. *)
Definition deref (member : MainWindow -> option Widget) : UI Widget :=
  fun s => (member s, s, []).

(** [MainWindow::initializeUI] *)
Definition initializeUI : UI unit :=
  act (SetWindowTitle "SIREN") ;;
  act Resize ;;
  act SetMinimumSize ;;
  act (Create TheMainLayout) ;;
  assign (set_mainLayout TheMainLayout) ;;
  act (Create CentralWidget) ;;
  act (CreateLayout CentralWidget) ;;
  act (SetContentsMargins CentralWidget NoMargin) ;;
  act (SetSpacing CentralWidget) ;;
  p <- pointer m_mainLayout ;;
  act (AddWidget CentralWidget p) ;;
  act (SetCentralWidget CentralWidget).

(** [MainWindow::applyTheme] *)
Definition applyTheme : UI unit :=
  act ApplyToApplication.

(** [MainWindow::createPanels] *)
Definition createPanels : UI unit :=
  act (Create ConnectionStatus) ;;
  assign (set_connectionStatus ConnectionStatus) ;;
  act (Create SonarData) ;;
  assign (set_sonarDataWidget SonarData) ;;
  act (Create SonarVisualization) ;;
  assign (set_sonarVisualizationWidget SonarVisualization) ;;
  act (Create ControlPanel) ;;
  act (Create SonarPanel) ;;
  act (Create DataPanel) ;;
  act (Create PerformancePanel) ;;
  act (ApplyStyle ControlPanelStyle ControlPanel) ;;
  act (ApplyStyle SonarPanelStyle SonarPanel) ;;
  act (ApplyStyle DataPanelStyle DataPanel) ;;
  act (ApplyStyle PerformancePanelStyle PerformancePanel) ;;
  act (CreateLayout DataPanel) ;;
  act (SetContentsMargins DataPanel PANEL_MARGIN) ;;
  p <- pointer m_connectionStatus ;;
  act (AddWidget DataPanel p) ;;
  p <- pointer m_sonarDataWidget ;;
  act (AddWidget DataPanel p) ;;
  act (AddStretch DataPanel) ;;
  act (CreateLayout SonarPanel) ;;
  act (SetContentsMargins SonarPanel NoMargin) ;;
  p <- pointer m_sonarVisualizationWidget ;;
  act (AddWidget SonarPanel p) ;;
  deref m_mainLayout ;;
  act (SetPlace ControlPlace ControlPanel) ;;
  deref m_mainLayout ;;
  act (SetPlace CenterPlace SonarPanel) ;;
  deref m_mainLayout ;;
  act (SetPlace DataPlace DataPanel) ;;
  deref m_mainLayout ;;
  act (SetPlace PerformancePlace PerformancePanel) ;;
  deref m_connectionStatus ;;
  act (UpdateConnectionState DISCONNECTED) ;;
  deref m_connectionStatus ;;
  act (UpdateServerAddress "localhost:8080").

(** [MainWindow::initializeWebSocketClient] *)
Definition initializeWebSocketClient : UI unit :=
  act (Create WebSocketClient) ;;
  assign (set_webSocketClient WebSocketClient) ;;
  act (Connect StateChangedHandler) ;;
  assign (add_connection StateChangedHandler) ;;
  act (Connect TextMessageHandler) ;;
  assign (add_connection TextMessageHandler) ;;
  deref m_webSocketClient ;;
  act ConnectToServer.

(** [MainWindow::MainWindow] *)
Definition construct : UI unit :=
  initializeUI ;;
  applyTheme ;;
  createPanels ;;
  initializeWebSocketClient.

(** The handler connected to [stateChanged]. *)
Definition on_state_changed (state : State) : UI unit :=
  let widgetState := widget_state_of state in
  deref m_connectionStatus ;;
  act (UpdateConnectionState widgetState).

(** The handler connected to [textMessageReceived]. *)
Definition on_text_message (message : string) : UI unit :=
  act (QDebug (MessageReceived message)) ;;
  let (parseResult, sonarData) := parseJsonText message in
  match parseResult with
  | SUCCESS =>
      act (QDebug (SonarDataReceived (toString sonarData))) ;;
      w <- deref m_sonarDataWidget ;;
      act (UpdateSonarData w sonarData) ;;
      w <- deref m_sonarVisualizationWidget ;;
      act (UpdateSonarData w sonarData)
  | Failure _ =>
      act (QDebug (ParseFailed (getErrorDescription parseResult) message))
  end.

(** The window as its constructor leaves it. *)
Definition constructed : MainWindow := snd (fst (construct uninitialized)).

(** The client emits a signal: the handler connected to it, if any, runs. *)
Definition deliver (signal : Signal) : UI unit :=
  fun s =>
    match signal with
    | stateChanged state =>
        if is_connected StateChangedHandler s
        then on_state_changed state s else done tt s
    | textMessageReceived message =>
        if is_connected TextMessageHandler s
        then on_text_message message s else done tt s
    | _ => done tt s
    end.

Fixpoint deliver_all (signals : list Signal) : UI unit :=
  match signals with
  | [] => done tt
  | signal :: rest => deliver signal ;; deliver_all rest
  end.

(** The life of a window: it is constructed, then the client's signals
    reach it. *)
Definition session (signals : list Signal) : UI unit :=
  construct ;; deliver_all signals.

(** *** Reading what a window did *)

Definition actions {A} (x : option A * MainWindow * list (Action SonarDataPoint))
  : list (Action SonarDataPoint) := snd x.
Definition window {A} (x : option A * MainWindow * list (Action SonarDataPoint))
  : MainWindow := snd (fst x).
Definition completed {A} (x : option A * MainWindow * list (Action SonarDataPoint))
  : bool := match fst (fst x) with Some _ => true | None => false end.

(** The connection states handed to the connection status widget. *)
Definition shown_states (l : list (Action SonarDataPoint)) : list ConnectionState :=
  flat_map (fun a => match a with UpdateConnectionState s => [s] | _ => [] end) l.

(** The data points handed to a widget. *)
Definition points_shown (target : Widget) (l : list (Action SonarDataPoint))
  : list SonarDataPoint :=
  flat_map (fun a => match a with
                     | UpdateSonarData w p =>
                         if Widget_beq w target then [p] else []
                     | _ => []
                     end) l.

(** How often the client was asked to connect. *)
Definition connect_requests (l : list (Action SonarDataPoint)) : nat :=
  List.length (filter (fun a => match a with ConnectToServer => true | _ => false end) l).

(** The states carried by the [stateChanged] signals of a stream. *)
Definition states_signalled (signals : list Signal) : list State :=
  flat_map (fun s => match s with stateChanged st => [st] | _ => [] end) signals.

(** The data points of the text messages of a stream that parse. *)
Definition points_received (signals : list Signal) : list SonarDataPoint :=
  flat_map (fun s => match s with
                     | textMessageReceived message =>
                         match parseJsonText message with
                         | (SUCCESS, p) => [p]
                         | (Failure _, _) => []
                         end
                     | _ => []
                     end) signals.

End Handlers.

(** Stand-ins for the parser and the two text functions, for examples:
    one text parses, to the point (45, 120); every other text is
    malformed. *)
Definition example_parse (message : string) : ParseResult unit * (Z * Z) :=
  if String.eqb message "angle=45 distance=120"
  then (SUCCESS, (45%Z, 120%Z))
  else (Failure tt, (0%Z, 0%Z)).

Definition example_text (point : Z * Z) : string := "a point".

Definition example_description (r : ParseResult unit) : string :=
  match r with SUCCESS => "no error" | Failure _ => "malformed" end.

End Window.

(* ===================================================================== *)
(** ** The version line of the banner *)
(* ===================================================================== *)

Module Banner.

Open Scope Z_scope.

(** The constants of [constants/performance.hpp] ([perf::optimization])
    that [main] uses to print the Boost version; their values are not
    part of this unit. *)
Record VersionConstants : Type := {
  BOOST_VERSION_MAJOR_DIVISOR : Z;
  BOOST_VERSION_MINOR_DIVISOR : Z;
  BOOST_VERSION_MINOR_MODULO : Z;
  BOOST_VERSION_PATCH_MODULO : Z
}.

(** The three numbers of the line "Boost version: a.b.c" of [main]:
    [BOOST_VERSION / MAJOR_DIVISOR],
    [BOOST_VERSION / MINOR_DIVISOR % MINOR_MODULO] and
    [BOOST_VERSION % PATCH_MODULO], with the integer division and
    remainder of C++ (truncating). *)
Definition boost_version_fields (k : VersionConstants) (BOOST_VERSION : Z)
  : Z * Z * Z :=
  (Z.quot BOOST_VERSION (BOOST_VERSION_MAJOR_DIVISOR k),
   Z.rem (Z.quot BOOST_VERSION (BOOST_VERSION_MINOR_DIVISOR k))
         (BOOST_VERSION_MINOR_MODULO k),
   Z.rem BOOST_VERSION (BOOST_VERSION_PATCH_MODULO k)).

(** The layout of the Boost version number: patch below [minor_unit],
    minor below [minor_unit * minors], major above. *)
Definition boost_layout (minor_unit minors : Z) : VersionConstants :=
  {| BOOST_VERSION_MAJOR_DIVISOR := minor_unit * minors;
     BOOST_VERSION_MINOR_DIVISOR := minor_unit;
     BOOST_VERSION_MINOR_MODULO := minors;
     BOOST_VERSION_PATCH_MODULO := minor_unit |}.

End Banner.
(* ===================================================================== *)
(** ** Properties of the lifecycle manager *)
(* ===================================================================== *)

Import Lifecycle.
Open Scope list_scope.

(** Unfolds the embedding down to the matches on what the world does. *)
Ltac unfold_model :=
  unfold rollback_stops_all_started, stop_carries_out_whole_plan,
    failed_initialize_wires_nothing, stop_twice,
    start, stop, initialize, rollback_from_ledger,
    rollbackStartedComponents, store_running, store_shutdown_requested,
    load_running, if_set, invoke, try_catch, noexcept, bind, ret, log, emit,
    read, write, result, memory, events,
    all_started, started_components, start_failure, first_refusal,
    initialized_components, all_initialized, wired,
    succeeds, fails, fails_std, returns_false, plan_unhindered,
    stop_plan, start_order in *.

(** Replaces the memory by its fields, with the running flag as [Hr]
    gives it. *)
Ltac known_not_running m Hr :=
  destruct m as [?r ?s ?a ?b ?c]; cbn in Hr; subst.

(** Follows the run: whenever it is stuck on a pointer test or on what a
    call does, considers each possibility. *)
Ltac split_world :=
  repeat (simpl;
    match goal with
    | |- context [match present ?w ?c with _ => _ end] =>
        destruct (present w c) eqn:?
    | |- context [andb (present ?w ?c) _] =>
        destruct (present w c) eqn:?
    | |- context [andb _ (present ?w ?c)] =>
        destruct (present w c) eqn:?
    | |- context [match behaviour ?w ?c ?m with _ => _ end] =>
        destruct (behaviour w c m) as [[|]|[|]] eqn:?
    | |- context [returns_true (behaviour ?w ?c ?m)] =>
        destruct (behaviour w c m) as [[|]|[|]] eqn:?
    | |- context [returns (behaviour ?w ?c ?m)] =>
        destruct (behaviour w c m) as [[|]|[|]] eqn:?
    end).

(** *** Runs that return at the first test *)

Lemma start_when_running (w : World) (m : Memory) :
  running m = true ->
  start w m =
    (Returned true, m, [Log (SystemError SERVER_ALREADY_RUNNING WARNING)]).
Proof.
  intros Hr. unfold start, load_running, bind, read.
  rewrite Hr. reflexivity.
Qed.

Lemma stop_when_not_running (w : World) (m : Memory) :
  running m = false -> stop w m = (Returned tt, m, []).
Proof.
  intros Hr. unfold stop, load_running, bind, read.
  rewrite Hr. reflexivity.
Qed.

(** [stop] leaves the running flag false, however it ends. *)
Lemma stop_leaves_not_running (w : World) (m : Memory) :
  running (memory (stop w m)) = false.
Proof.
  destruct (running m) eqn:Hr.
  - unfold_model. rewrite Hr. split_world; reflexivity.
  - rewrite stop_when_not_running by assumption. exact Hr.
Qed.

(** C5. A call of [start] that finds the running flag true returns [true]
    at once: no component is called (in particular none is started), the
    memory, and with it the running flag, is left as it was, and the only
    thing observed is the already-running warning. *)
Theorem start_while_running_changes_nothing (w : World) (m : Memory) :
  running m = true ->
  result (start w m) = Returned true /\
  calls (events (start w m)) = [] /\
  memory (start w m) = m /\
  events (start w m) = [Log (SystemError SERVER_ALREADY_RUNNING WARNING)].
Proof.
  intros Hr. rewrite (start_when_running w m Hr). cbn. auto.
Qed.

Lemma start_while_running_changes_nothing_witness :
  running serving = true /\
  result (start healthy serving) = Returned true /\
  calls (events (start healthy serving)) = [] /\
  memory (start healthy serving) = serving /\
  events (start healthy serving) =
    [Log (SystemError SERVER_ALREADY_RUNNING WARNING)].
Proof.
  split; [reflexivity|].
  apply (start_while_running_changes_nothing healthy serving). reflexivity.
Defined.

(** C6. Calling [stop] twice in a row, from any memory (any values of the
    running and shutdown-requested flags) and whatever the components do,
    leaves the same memory and the same observations as calling it once;
    the second call finds the running flag false, issues no call to any
    component and produces nothing. *)
Theorem stop_twice_is_stop_once (w w' : World) (m : Memory) :
  stop_twice w w' m = (memory (stop w m), events (stop w m)) /\
  stop w' (memory (stop w m)) = (Returned tt, memory (stop w m), []) /\
  calls (events (stop w' (memory (stop w m)))) = [].
Proof.
  assert (H : stop w' (memory (stop w m)) = (Returned tt, memory (stop w m), [])).
  { apply stop_when_not_running, stop_leaves_not_running. }
  unfold stop_twice. rewrite H. cbn. rewrite app_nil_r. auto.
Qed.

(** *** [stop] *)

(** What a call of [stop] that finds the running flag true does, whatever
    the world. *)
Lemma stop_when_running (w : World) (m : Memory) :
  running m = true ->
  exists tail,
    events (stop w m) =
      Log (Status STOPPING_SERVER) :: Store ShutdownRequested true
        :: Store Running false :: tail /\
    calls tail = carried_out w stop_plan /\
    shutdown_requested (memory (stop w m)) = true /\
    running (memory (stop w m)) = false.
Proof.
  intros Hr. unfold_model. rewrite Hr.
  split_world; eexists; repeat split; reflexivity.
Qed.

(** The two flags are stored before anything else, and once. *)
Lemma stop_stores_flags_first (w : World) (m : Memory) :
  running m = true ->
  exists tail,
    events (stop w m) =
      Log (Status STOPPING_SERVER) :: Store ShutdownRequested true
        :: Store Running false :: tail /\
    (forall f b, ~ In (Store f b) tail) /\
    shutdown_requested (memory (stop w m)) = true /\
    running (memory (stop w m)) = false.
Proof.
  intros Hr. unfold_model. rewrite Hr.
  split_world; simpl; eexists; (split; [reflexivity|]);
    (split; [|split; reflexivity]);
    intros f b H; simpl in H;
    repeat (destruct H as [H|H]; [discriminate|]); exact H.
Qed.

(** What [stop] does when every call it makes returns. *)
Lemma stop_when_calls_return (w : World) (m : Memory) :
  running m = true ->
  plan_returns w stop_plan = true ->
  result (stop w m) = Returned tt /\
  events (stop w m) =
    [Log (Status STOPPING_SERVER); Store ShutdownRequested true;
     Store Running false] ++
    map (fun cm => Call (fst cm) (snd cm)) (plan_on_present w stop_plan) ++
    [Log (Status SERVER_STOPPED)].
Proof.
  intros Hr. unfold plan_returns, plan_on_present. unfold_model. rewrite Hr.
  split_world; simpl; intros H; try discriminate; split; reflexivity.
Qed.

Lemma calls_of_plan (pre : list Event) (plan : list (Component * Method))
      (post : LogLine) :
  calls pre = [] ->
  calls (pre ++ map (fun cm => Call (fst cm) (snd cm)) plan ++ [Log post]) = plan.
Proof.
  intros Hpre. unfold calls in *. rewrite flat_map_app, Hpre. simpl.
  induction plan as [|[c mt] plan IH]; simpl; [|rewrite IH]; reflexivity.
Qed.

Lemma plan_unhindered_returns (w : World) (plan : list (Component * Method)) :
  plan_unhindered w plan = true ->
  plan_returns w plan = true /\ plan_on_present w plan = plan.
Proof.
  unfold plan_unhindered, plan_returns, plan_on_present.
  induction plan as [|cm plan IH]; simpl; intros H.
  - split; reflexivity.
  - apply andb_prop in H. destruct H as [H Hrest].
    apply andb_prop in H. destruct H as [Hp Hb].
    destruct (IH Hrest) as [IH1 IH2].
    rewrite Hp, Hb, IH1, IH2. split; reflexivity.
Qed.

(** C3 (as the code has it). A call of [stop] that finds the running flag
    true first stores shutdown-requested := true, then running := false,
    once each and before any call to a component.  When every call it
    then makes returns, it goes through acceptor stop, broadcaster stop,
    session manager closeAllSessions, collector stop in exactly this
    order, skipping a component whose pointer is null, prints the stopped
    status line and returns; with all four pointers set these are exactly
    the four calls.  A call that finds the running flag false issues no
    call and changes nothing. *)
Theorem stop_sets_flags_then_follows_plan (w : World) (m : Memory) :
  (running m = true ->
   (exists tail,
      events (stop w m) =
        Log (Status STOPPING_SERVER) :: Store ShutdownRequested true
          :: Store Running false :: tail /\
      (forall f b, ~ In (Store f b) tail)) /\
   shutdown_requested (memory (stop w m)) = true /\
   running (memory (stop w m)) = false /\
   (plan_returns w stop_plan = true ->
    result (stop w m) = Returned tt /\
    calls (events (stop w m)) = plan_on_present w stop_plan /\
    events (stop w m) =
      [Log (Status STOPPING_SERVER); Store ShutdownRequested true;
       Store Running false] ++
      map (fun cm => Call (fst cm) (snd cm)) (plan_on_present w stop_plan) ++
      [Log (Status SERVER_STOPPED)]) /\
   (plan_unhindered w stop_plan = true ->
    calls (events (stop w m)) = stop_plan /\
    result (stop w m) = Returned tt)) /\
  (running m = false ->
   stop w m = (Returned tt, m, []) /\ calls (events (stop w m)) = []).
Proof.
  split; intros Hr.
  - destruct (stop_stores_flags_first w m Hr) as (tail & Hev & Hst & Hs & Hrun).
    assert (Hret : plan_returns w stop_plan = true ->
              result (stop w m) = Returned tt /\
              calls (events (stop w m)) = plan_on_present w stop_plan /\
              events (stop w m) =
                [Log (Status STOPPING_SERVER); Store ShutdownRequested true;
                 Store Running false] ++
                map (fun cm => Call (fst cm) (snd cm))
                    (plan_on_present w stop_plan) ++
                [Log (Status SERVER_STOPPED)]).
    { intros Hp. destruct (stop_when_calls_return w m Hr Hp) as [Hres Hevs].
      split; [exact Hres|]. split; [|exact Hevs].
      rewrite Hevs. apply calls_of_plan. reflexivity. }
    split; [exists tail; split; assumption|].
    split; [exact Hs|]. split; [exact Hrun|]. split; [exact Hret|].
    intros Hun. destruct (plan_unhindered_returns w stop_plan Hun) as [Hp Hall].
    destruct (Hret Hp) as (Hres & Hcalls & _).
    rewrite Hcalls, Hall. split; [reflexivity | exact Hres].
  - rewrite (stop_when_not_running w m Hr). cbn. auto.
Qed.

Lemma stop_sets_flags_then_follows_plan_witness :
  running serving = true /\
  plan_returns (without healthy SessionManager) stop_plan = true /\
  plan_unhindered healthy stop_plan = true /\
  running fresh = false /\
  calls (events (stop (without healthy SessionManager) serving)) =
    [(ConnectionAcceptor, Stop); (MessageBroadcaster, Stop);
     (StatisticsCollector, Stop)] /\
  calls (events (stop healthy serving)) = stop_plan /\
  result (stop healthy serving) = Returned tt /\
  stop healthy fresh = (Returned tt, fresh, []).
Proof.
  destruct (stop_sets_flags_then_follows_plan
              (without healthy SessionManager) serving) as [Hnull _].
  destruct (stop_sets_flags_then_follows_plan healthy serving) as [Hon _].
  destruct (stop_sets_flags_then_follows_plan healthy fresh) as [_ Hoff].
  destruct (Hnull eq_refl) as (_ & _ & _ & Hskip & _).
  destruct (Hskip eq_refl) as (_ & Hskipped & _).
  destruct (Hon eq_refl) as (_ & _ & _ & _ & Hplan).
  destruct (Hplan eq_refl) as [Hcalls Hres].
  destruct (Hoff eq_refl) as [Hnoop _].
  split; [reflexivity|]. split; [reflexivity|]. split; [reflexivity|].
  split; [reflexivity|]. split; [exact Hskipped|].
  split; [exact Hcalls|]. split; [exact Hres | exact Hnoop].
Defined.

(** C3 (as worded) fails: with the running flag true and the session
    manager pointer null, the guard [if (session_manager_)] skips
    closeAllSessions; [stop] makes the three other calls and returns. *)
Lemma stop_skips_null_session_manager :
  running serving = true /\
  present (without healthy SessionManager) SessionManager = false /\
  calls (events (stop (without healthy SessionManager) serving)) =
    [(ConnectionAcceptor, Stop); (MessageBroadcaster, Stop);
     (StatisticsCollector, Stop)] /\
  result (stop (without healthy SessionManager) serving) = Returned tt /\
  ~ stop_carries_out_whole_plan (without healthy SessionManager) serving.
Proof.
  repeat split; intros H; vm_compute in H; discriminate.
Qed.

(** *** [rollbackStartedComponents] *)

(** The rollback always returns to its caller, touches no memory, and
    goes through its targets in rollback order. *)
Lemma rollback_run (w : World) (a b c : bool) (m : Memory) :
  rollbackStartedComponents w a b c m =
    (Returned tt, m, rollback_events w (rollback_targets w a b c)).
Proof.
  unfold rollback_targets, rollback_order, rollback_completed, rollback_failed.
  unfold_model. destruct a, b, c; split_world; reflexivity.
Qed.

Lemma rolled_back_is_note (x : Component) (l : LogLine) :
  rolled_back x = Some l ->
  l <> rollback_completed /\ l <> rollback_failed.
Proof.
  destruct x; cbn; intros H; try discriminate; injection H as <-;
    split; discriminate.
Qed.

Lemma rolled_back_injective (x y : Component) (l : LogLine) :
  rolled_back x = Some l -> rolled_back y = Some l -> x = y.
Proof.
  destruct x, y; cbn; intros Hx Hy; try discriminate; try reflexivity;
    rewrite <- Hx in Hy; discriminate.
Qed.

(** "Rolled back X" is printed only for a target, after its [stop()]. *)
Lemma rollback_events_rolled_back (w : World) (l : list Component)
      (x : Component) (line : LogLine) :
  rolled_back x = Some line ->
  In (Log line) (rollback_events w l) ->
  In x l /\ In (Call x Stop) (rollback_events w l).
Proof.
  intros Hx. destruct (rolled_back_is_note x Hx) as [Hc Hf].
  induction l as [|y l IH]; cbn.
  - intros [H|[]]. injection H as H. congruence.
  - intros [H|H]; [discriminate|].
    destruct (behaviour w y Stop).
    + destruct (rolled_back y) as [ly|] eqn:Hy.
      * destruct H as [H|H].
        -- injection H as ->.
           rewrite (rolled_back_injective y x Hy Hx). cbn. tauto.
        -- destruct (IH H) as [? ?]. cbn. tauto.
      * destruct (IH H) as [? ?]. cbn. tauto.
    + destruct H as [H|[]]. injection H as H. congruence.
Qed.

(** A [stop()] that throws inside the rollback is reported. *)
Lemma rollback_events_report_throw (w : World) (l : list Component)
      (x : Component) (e : Exn) :
  In (Call x Stop) (rollback_events w l) ->
  behaviour w x Stop = Throws e ->
  In (Log rollback_failed) (rollback_events w l).
Proof.
  induction l as [|y l IH]; cbn.
  - intros [H|[]]. discriminate.
  - intros [H|H] Hx.
    + injection H as ->. rewrite Hx. cbn. auto.
    + right. destruct (behaviour w y Stop).
      * destruct (rolled_back y).
        -- destruct H as [H|H]; [discriminate|]. right. auto.
        -- auto.
      * left. reflexivity.
Qed.

(** The [stop()] calls of a rollback. *)
Lemma stops_rollback_events (w : World) (l : list Component) :
  stops (rollback_events w l) = until_throw w l.
Proof.
  unfold stops. induction l as [|y l IH]; cbn.
  - reflexivity.
  - destruct (behaviour w y Stop); cbn.
    + destruct (rolled_back y); cbn; rewrite IH; reflexivity.
    + reflexivity.
Qed.

Lemma rollback_targets_flag (w : World) (a b c : bool) (x : Component) :
  In x (rollback_targets w a b c) ->
  ledger_flag a b c x = true /\ present w x = true.
Proof.
  unfold rollback_targets. rewrite filter_In.
  intros [_ H]. apply andb_prop in H. exact H.
Qed.

Lemma until_throw_all (w : World) (l : list Component) :
  forallb (fun c => returns (behaviour w c Stop)) l = true ->
  until_throw w l = l.
Proof.
  induction l as [|c l IH]; cbn; intros H.
  - reflexivity.
  - apply andb_prop in H. destruct H as [Hc Hl].
    destruct (behaviour w c Stop); cbn in Hc.
    + rewrite IH by assumption. reflexivity.
    + discriminate.
Qed.

Lemma forallb_rev {A} (p : A -> bool) (l : list A) :
  forallb p (rev l) = forallb p l.
Proof.
  induction l as [|x l IH]; cbn.
  - reflexivity.
  - rewrite forallb_app, IH. cbn. rewrite andb_true_r. apply andb_comm.
Qed.

(** *** [start] *)

(** Unfolds [start] down to its calls of the rollback, which are replaced
    by what the rollback is known to do. *)
Ltac unfold_start :=
  unfold start, rollback_from_ledger, store_running, load_running,
    invoke, try_catch, bind, ret, log, emit, read, write,
    result, memory, events,
    all_started, started_components, start_failure,
    succeeds, fails, fails_std, start_order in *.

Ltac follow_start :=
  repeat (simpl;
    match goal with
    | |- context [rollbackStartedComponents _ _ _ _ _] =>
        rewrite rollback_run
    | |- context [match present ?w ?c with _ => _ end] =>
        destruct (present w c) eqn:?
    | |- context [andb (present ?w ?c) _] =>
        destruct (present w c) eqn:?
    | |- context [match behaviour ?w ?c Start with _ => _ end] =>
        destruct (behaviour w c Start) as [[|]|[|]] eqn:?
    | |- context [returns_true (behaviour ?w ?c Start)] =>
        destruct (behaviour w c Start) as [[|]|[|]] eqn:?
    end).


(** The rollback observes nothing but [stop()] calls and its own notes. *)
Lemma rollback_events_shape (w : World) (l : list Component) (e : Event) :
  In e (rollback_events w l) ->
  (exists x, e = Call x Stop) \/ (exists t, e = Log (Note t)).
Proof.
  induction l as [|y l IH]; cbn.
  - intros [<-|[]]. right. eexists. reflexivity.
  - intros [<-|H]; [left; eexists; reflexivity|].
    destruct (behaviour w y Stop).
    + destruct (rolled_back y) as [line|] eqn:Hy; [|auto].
      destruct H as [<-|H]; [|auto].
      right. destruct y; cbn in Hy; try discriminate;
        injection Hy as <-; eexists; reflexivity.
    + destruct H as [<-|[]]. right. eexists. reflexivity.
Qed.

(** The targets of a rollback, once the pointers are known. *)
Ltac known_targets :=
  unfold rollback_targets, rollback_order; simpl;
  repeat match goal with
         | H : present _ _ = _ |- _ => rewrite H
         end; simpl.

(** Closes a goal whose hypothesis [H] puts into a run an event that the
    run does not contain. *)
Ltac not_in_run H :=
  exfalso; rewrite ?app_nil_r in H; simpl in H;
  repeat (destruct H as [H|H]; try discriminate);
  try contradiction;
  apply rollback_events_shape in H;
  destruct H as [[? H]|[? H]]; discriminate.

(** The running flag is set exactly on the path where the three starts
    returned [true]. *)
Lemma start_sets_running_iff (w : World) (m : Memory) :
  running m = false ->
  (In (Store Running true) (events (start w m)) <-> all_started w = true) /\
  (running (memory (start w m)) = true <-> all_started w = true) /\
  (result (start w m) = Returned true <-> all_started w = true).
Proof.
  intros Hr. known_not_running m Hr. unfold_start.
  follow_start; simpl; repeat split; intros H;
    try reflexivity; try discriminate; try assumption;
    try (simpl; tauto); not_in_run H.
Qed.

(** A failing [start] returns [false], leaves the running flag false, and
    its rollback stops the started components in reverse start order, up
    to a [stop()] that throws. *)
Lemma start_failure_run (w : World) (m : Memory) (c : Component) :
  running m = false ->
  start_failure w = Some c ->
  behaviour w c Start <> Throws OtherException ->
  result (start w m) = Returned false /\
  running (memory (start w m)) = false /\
  stops (events (start w m)) = until_throw w (rev (started_components w)).
Proof.
  intros Hr. known_not_running m Hr. unfold stops. unfold_start.
  follow_start; simpl; intros Hc Hne;
    try discriminate; try (injection Hc as <-; congruence);
    repeat split; try reflexivity;
    rewrite ?app_nil_r;
    match goal with
    | |- context [flat_map ?f (rollback_events ?w ?l)] =>
        change (flat_map f (rollback_events w l))
          with (stops (rollback_events w l))
    end;
    rewrite stops_rollback_events; known_targets; reflexivity.
Qed.

Lemma take_while_In {A} (p : A -> bool) (l : list A) (x : A) :
  In x (take_while p l) -> p x = true.
Proof.
  induction l as [|y l IH]; simpl; [intros []|].
  destruct (p y) eqn:Hy; [|intros []].
  intros [<-|H]; [exact Hy | exact (IH H)].
Qed.

Lemma started_component_returned_true (w : World) (x : Component) :
  In x (started_components w) -> behaviour w x Start = Returns true.
Proof.
  intros H. apply take_while_In in H. unfold succeeds in H.
  apply andb_prop in H. destruct H as [_ H].
  destruct (behaviour w x Start) as [[|]|]; (reflexivity || discriminate).
Qed.

(** [start] prints "Rolled back X" only for a component it has started,
    and only after having stopped it again. *)
Lemma start_rolls_back_only_started (w : World) (m : Memory)
      (x : Component) (line : LogLine) :
  rolled_back x = Some line ->
  In (Log line) (events (start w m)) ->
  In x (started_components w) /\
  In (Call x Start) (events (start w m)) /\
  In (Call x Stop) (events (start w m)).
Proof.
  intros Hx. destruct (rolled_back_is_note x Hx) as [Hc Hf].
  unfold rollback_completed in Hc.
  destruct (running m) eqn:Hr.
  - rewrite (start_when_running w m Hr). cbn.
    intros [H|[]]. destruct x; cbn in Hx; congruence.
  - known_not_running m Hr. unfold_start.
    follow_start; simpl; intros H; rewrite ?app_nil_r in *;
      repeat (destruct H as [H|H];
              try discriminate;
              try (exfalso; destruct x; cbn in Hx; congruence));
      try contradiction;
      apply rollback_events_rolled_back with (x := x) in H; try assumption;
      destruct H as [Ht Hs];
      apply rollback_targets_flag in Ht; destruct Ht as [Hflag _];
      destruct x; cbn in Hflag; try discriminate;
      simpl; tauto.
Qed.

(** A [start] whose rollback printed the critical line still returns
    [false] with the running flag false. *)
Lemma start_after_failed_rollback (w : World) (m : Memory) :
  running m = false ->
  In (Log rollback_failed) (events (start w m)) ->
  result (start w m) = Returned false /\
  running (memory (start w m)) = false.
Proof.
  intros Hr. known_not_running m Hr. unfold rollback_failed. unfold_start.
  follow_start; simpl; intros H; try (split; reflexivity);
    exfalso; repeat (destruct H as [H|H]; try discriminate);
    contradiction.
Qed.

(** Nothing that happens in [start] ends the process through the
    [noexcept] boundary of the rollback. *)
Lemma start_never_terminates_process (w : World) (m : Memory) :
  result (start w m) <> Crashed NoexceptViolation.
Proof.
  destruct (running m) eqn:Hr.
  - rewrite (start_when_running w m Hr). discriminate.
  - known_not_running m Hr. unfold_start.
    follow_start; simpl; discriminate.
Qed.

(** The critical line is printed by a failing [start] exactly when the
    [stop()] of a started component throws. *)
Lemma start_failure_critical_line (w : World) (m : Memory) (c : Component) :
  running m = false ->
  start_failure w = Some c ->
  behaviour w c Start <> Throws OtherException ->
  (In (Log rollback_failed) (events (start w m)) <->
   forallb (fun x => returns (behaviour w x Stop)) (started_components w)
     = false).
Proof.
  intros Hr. known_not_running m Hr. unfold rollback_failed. unfold_model.
  split_world; simpl; intros Hc Hne;
    try discriminate; try (injection Hc as <-; congruence);
    split; intros H; try reflexivity; try discriminate;
    try (simpl; tauto);
    exfalso; repeat (destruct H as [H|H]; [discriminate|]); exact H.
Qed.

(** C1 (as the code has it). When a call of [start] finds the running
    flag false and the start of some component fails, by returning
    [false] or by throwing a [std::exception], then [start] returns
    [false], the running flag is false, and the [stop()] calls issued are
    those of the components whose start had succeeded in this call, in
    reverse start order (collector, broadcaster, acceptor), up to and
    including the first [stop()] that throws: the rollback ends there
    and logs the critical line.  When each of these [stop()] calls
    returns, exactly the started components are stopped, in reverse start
    order, and the critical line is not logged. *)
Theorem start_failure_rolls_back_in_reverse_order
        (w : World) (m : Memory) (c : Component) :
  running m = false ->
  start_failure w = Some c ->
  fails_std w Start c = true ->
  result (start w m) = Returned false /\
  running (memory (start w m)) = false /\
  stops (events (start w m)) = until_throw w (rev (started_components w)) /\
  (forallb (fun x => returns (behaviour w x Stop)) (started_components w) = true ->
   stops (events (start w m)) = rev (started_components w)) /\
  (In (Log rollback_failed) (events (start w m)) <->
   forallb (fun x => returns (behaviour w x Stop)) (started_components w)
     = false).
Proof.
  intros Hr Hc Hstd.
  assert (Hne : behaviour w c Start <> Throws OtherException).
  { intros E. unfold fails_std in Hstd. rewrite E in Hstd.
    rewrite andb_false_r in Hstd. discriminate. }
  destruct (start_failure_run w m Hr Hc Hne) as (Hres & Hrun & Hstops).
  split; [exact Hres|]. split; [exact Hrun|]. split; [exact Hstops|].
  split; [|exact (start_failure_critical_line w m Hr Hc Hne)].
  intros Hall. rewrite Hstops. apply until_throw_all.
  rewrite forallb_rev. exact Hall.
Qed.

Lemma start_failure_rolls_back_in_reverse_order_witness :
  running fresh = false /\
  start_failure (override healthy StatisticsCollector Start (Throws StdException))
    = Some StatisticsCollector /\
  fails_std (override healthy StatisticsCollector Start (Throws StdException))
            Start StatisticsCollector = true /\
  result (start (override healthy StatisticsCollector Start (Throws StdException))
                fresh) = Returned false /\
  stops (events (start (override healthy StatisticsCollector Start
                                 (Throws StdException)) fresh))
    = [MessageBroadcaster; ConnectionAcceptor] /\
  start_failure broadcaster_stop_throws_in_rollback = Some StatisticsCollector /\
  fails_std broadcaster_stop_throws_in_rollback Start StatisticsCollector
    = true /\
  In (Log rollback_failed)
     (events (start broadcaster_stop_throws_in_rollback fresh)).
Proof.
  pose proof (start_failure_rolls_back_in_reverse_order
                (override healthy StatisticsCollector Start (Throws StdException))
                fresh (c := StatisticsCollector)) as H.
  destruct H as (Hres & _ & _ & Hall & _);
    [reflexivity | reflexivity | reflexivity |].
  pose proof (start_failure_rolls_back_in_reverse_order
                broadcaster_stop_throws_in_rollback
                fresh (c := StatisticsCollector)) as H'.
  destruct H' as (_ & _ & _ & _ & Hcrit);
    [reflexivity | reflexivity | reflexivity |].
  split; [reflexivity|]. split; [reflexivity|]. split; [reflexivity|].
  split; [exact Hres|]. split; [exact (Hall eq_refl)|].
  split; [reflexivity|]. split; [reflexivity|].
  apply Hcrit. reflexivity.
Defined.

(** C1 (as worded) fails: the acceptor and the broadcaster start, the
    collector refuses, and the broadcaster's [stop()] throws during the
    rollback.  The rollback ends at that call: the acceptor, which had
    been started, is never stopped. *)
Lemma rollback_ends_at_throwing_stop :
  running fresh = false /\
  start_failure broadcaster_stop_throws_in_rollback = Some StatisticsCollector /\
  started_components broadcaster_stop_throws_in_rollback
    = [ConnectionAcceptor; MessageBroadcaster] /\
  stops (events (start broadcaster_stop_throws_in_rollback fresh))
    = [MessageBroadcaster] /\
  ~ rollback_stops_all_started broadcaster_stop_throws_in_rollback fresh.
Proof.
  repeat split. intros (_ & _ & H). vm_compute in H. discriminate.
Qed.

(** An exception that is not a [std::exception] passes through [start]:
    nothing is rolled back and [start] does not return. *)
Lemma start_lets_other_exceptions_through :
  start_failure broadcaster_start_throws_other = Some MessageBroadcaster /\
  started_components broadcaster_start_throws_other = [ConnectionAcceptor] /\
  result (start broadcaster_start_throws_other fresh) = Thrown OtherException /\
  stops (events (start broadcaster_start_throws_other fresh)) = [].
Proof. repeat split. Qed.



(** C4. [rollbackStartedComponents] returns to its caller for every
    combination of the three flags and whatever the components do: an
    exception thrown by a [stop()] call inside it is caught and reported
    by the critical log line and never propagates, and it does not write
    the shared flags.  When [start], entered with the running flag false,
    goes through a rollback that failed in this way, it still returns
    [false] with the running flag false; and no path of [start] ends the
    process at the rollback's [noexcept] boundary. *)
Theorem rollback_never_throws (w : World) (a b c : bool) (m : Memory) :
  result (rollbackStartedComponents w a b c m) = Returned tt /\
  memory (rollbackStartedComponents w a b c m) = m /\
  (forall x e,
      In (Call x Stop) (events (rollbackStartedComponents w a b c m)) ->
      behaviour w x Stop = Throws e ->
      In (Log rollback_failed) (events (rollbackStartedComponents w a b c m))) /\
  (running m = false ->
   In (Log rollback_failed) (events (start w m)) ->
   result (start w m) = Returned false /\
   running (memory (start w m)) = false) /\
  result (start w m) <> Crashed NoexceptViolation.
Proof.
  rewrite rollback_run. cbn. repeat split.
  - intros x e. apply rollback_events_report_throw.
  - apply start_after_failed_rollback; assumption.
  - apply start_after_failed_rollback; assumption.
  - apply start_never_terminates_process.
Qed.

Lemma rollback_never_throws_witness :
  running fresh = false /\
  In (Call MessageBroadcaster Stop)
     (events (rollbackStartedComponents broadcaster_stop_throws_in_rollback
                true true false fresh)) /\
  behaviour broadcaster_stop_throws_in_rollback MessageBroadcaster Stop
    = Throws StdException /\
  In (Log rollback_failed)
     (events (rollbackStartedComponents broadcaster_stop_throws_in_rollback
                true true false fresh)) /\
  In (Log rollback_failed)
     (events (start broadcaster_stop_throws_in_rollback fresh)) /\
  result (start broadcaster_stop_throws_in_rollback fresh) = Returned false /\
  running (memory (start broadcaster_stop_throws_in_rollback fresh)) = false.
Proof.
  destruct (rollback_never_throws broadcaster_stop_throws_in_rollback
              true true false fresh) as (_ & _ & Hreport & Hstart & _).
  assert (Hcall : In (Call MessageBroadcaster Stop)
            (events (rollbackStartedComponents
                       broadcaster_stop_throws_in_rollback
                       true true false fresh))).
  { cbn. auto. }
  assert (Hlog : In (Log rollback_failed)
            (events (start broadcaster_stop_throws_in_rollback fresh))).
  { cbn. auto 10. }
  destruct (Hstart eq_refl Hlog) as [Hres Hrun].
  split; [reflexivity|]. split; [exact Hcall|]. split; [reflexivity|].
  split; [exact (Hreport MessageBroadcaster StdException Hcall eq_refl)|].
  split; [exact Hlog|]. split; [exact Hres | exact Hrun].
Defined.

(** "Rolled back X" directly follows the call of X's [stop()], which has
    returned. *)
Lemma rollback_events_rolled_back_after_stop (w : World) (l : list Component)
      (x : Component) (line : LogLine) :
  rolled_back x = Some line ->
  In (Log line) (rollback_events w l) ->
  returns (behaviour w x Stop) = true /\
  exists pre post,
    rollback_events w l = pre ++ Call x Stop :: Log line :: post.
Proof.
  intros Hx. destruct (rolled_back_is_note x Hx) as [Hc Hf].
  induction l as [|y l IH]; cbn.
  - intros [H|[]]. injection H as H. congruence.
  - intros [H|H]; [discriminate|].
    destruct (behaviour w y Stop) as [b|e] eqn:Hy.
    + destruct (rolled_back y) as [ly|] eqn:Hly.
      * destruct H as [H|H].
        -- injection H as ->.
           rewrite <- (rolled_back_injective y x Hly Hx). rewrite Hy.
           split; [reflexivity|]. exists [], (rollback_events w l). reflexivity.
        -- destruct (IH H) as (Hret & pre & post & Heq).
           split; [exact Hret|].
           exists (Call y Stop :: Log ly :: pre), post. rewrite Heq. reflexivity.
      * destruct (IH H) as (Hret & pre & post & Heq).
        split; [exact Hret|].
        exists (Call y Stop :: pre), post. rewrite Heq. reflexivity.
    + destruct H as [H|[]]. injection H as H. congruence.
Qed.

(** In a run of [start], "Rolled back X" directly follows the call of X's
    [stop()], which itself comes after the call of X's [start()]. *)
Lemma start_rolled_back_after_stop (w : World) (m : Memory)
      (x : Component) (line : LogLine) :
  rolled_back x = Some line ->
  In (Log line) (events (start w m)) ->
  returns (behaviour w x Stop) = true /\
  exists pre post,
    events (start w m) = pre ++ Call x Stop :: Log line :: post /\
    In (Call x Start) pre.
Proof.
  intros Hx. destruct (rolled_back_is_note x Hx) as [Hc Hf].
  unfold rollback_completed in Hc.
  destruct (running m) eqn:Hr.
  - rewrite (start_when_running w m Hr). cbn.
    intros [H|[]]. destruct x; cbn in Hx; congruence.
  - known_not_running m Hr. unfold_start.
    follow_start; simpl; intros H; rewrite ?app_nil_r in *;
      repeat (destruct H as [H|H];
              try discriminate;
              try (exfalso; destruct x; cbn in Hx; congruence));
      try contradiction;
      pose proof H as Ht;
      apply rollback_events_rolled_back with (x := x) in Ht; try assumption;
      destruct Ht as [Ht _];
      apply rollback_targets_flag in Ht; destruct Ht as [Hflag _];
      destruct (@rollback_events_rolled_back_after_stop w _ x _ Hx H)
        as (Hret & pre & post & Heq);
      (split; [exact Hret|]);
      rewrite Heq; rewrite ?app_comm_cons;
      eexists; eexists; (split; [reflexivity|]);
      destruct x; cbn in Hflag; try discriminate;
      simpl; tauto.
Qed.

(** C9 (as the code has it). In every call of [start], the rollback
    prints "Rolled back X" only for a component X whose [start()] had
    returned [true] in that call (whose start-success flag was true), and
    only directly after the call of X's [stop()], which has returned and
    which itself comes after the call of X's [start()]; and
    [rollbackStartedComponents] itself prints the line for X only when
    the flag it was passed for X is true, directly after the call of X's
    [stop()]. *)
Theorem rollback_logged_only_for_started
        (w : World) (m : Memory) (x : Component) (line : LogLine) :
  rolled_back x = Some line ->
  (In (Log line) (events (start w m)) ->
   started_in_run w (events (start w m)) x /\
   In x (started_components w) /\
   In (Call x Stop) (events (start w m)) /\
   returns (behaviour w x Stop) = true /\
   exists pre post,
     events (start w m) = pre ++ Call x Stop :: Log line :: post /\
     In (Call x Start) pre) /\
  (forall a b c m',
      In (Log line) (events (rollbackStartedComponents w a b c m')) ->
      ledger_flag a b c x = true /\
      returns (behaviour w x Stop) = true /\
      exists pre post,
        events (rollbackStartedComponents w a b c m') =
          pre ++ Call x Stop :: Log line :: post).
Proof.
  intros Hx. split.
  - intros Hin.
    destruct (start_rolls_back_only_started w m x Hx Hin)
      as (Hstarted & Hcall & Hstop).
    destruct (start_rolled_back_after_stop w m x Hx Hin) as (Hret & Horder).
    repeat split; try assumption.
    apply started_component_returned_true. exact Hstarted.
  - intros a b c m'. rewrite rollback_run. cbn. intros Hin.
    destruct (@rollback_events_rolled_back_after_stop w _ x _ Hx Hin)
      as (Hret & Horder).
    apply rollback_events_rolled_back with (x := x) in Hin; [|exact Hx].
    destruct Hin as [Ht _]. apply rollback_targets_flag in Ht.
    split; [apply Ht|]. split; [exact Hret | exact Horder].
Qed.

Lemma rollback_logged_only_for_started_witness :
  rolled_back MessageBroadcaster = Some (Note "Rolled back message broadcaster") /\
  In (Log (Note "Rolled back message broadcaster"))
     (events (start (override healthy StatisticsCollector Start (Returns false))
                    fresh)) /\
  In MessageBroadcaster
     (started_components
        (override healthy StatisticsCollector Start (Returns false))).
Proof.
  assert (Hlog : In (Log (Note "Rolled back message broadcaster"))
     (events (start (override healthy StatisticsCollector Start (Returns false))
                    fresh))).
  { cbn. auto 10. }
  destruct (rollback_logged_only_for_started
              (override healthy StatisticsCollector Start (Returns false))
              fresh MessageBroadcaster eq_refl) as [Hstart _].
  destruct (Hstart Hlog) as (_ & Hin & _).
  split; [reflexivity|]. split; [exact Hlog | exact Hin].
Defined.

(** C9 (as worded) fails: there is no call of [start] whose rollback
    prints "Rolled back X" for a component X that was not started in that
    call. *)
Lemma no_rollback_logged_for_unstarted : ~ rollback_logged_for_unstarted.
Proof.
  intros (w & m & x & line & Hx & Hin & Hnot).
  apply Hnot.
  destruct (start_rolls_back_only_started w m x Hx Hin) as (Hstarted & Hcall & _).
  split; [exact Hcall|].
  apply started_component_returned_true. exact Hstarted.
Qed.

(** *** [initialize] *)

(** The ways a call of [initialize] can go, by what the three component
    initializations do. *)
Lemma initialize_refused (w : World) (m : Memory) (c : Component) :
  first_refusal w = Some c ->
  exists name reason,
    initialize w m =
      (Returned false, m,
       map (fun x => Call x Initialize) (initialized_components w ++ [c])
         ++ [Log (InitializationError name reason)]).
Proof.
  unfold_model. split_world; intros H; try discriminate;
    injection H as <-; do 2 eexists; reflexivity.
Qed.

Lemma initialize_all_initialized (w : World) (m : Memory) :
  all_initialized w = true ->
  exists tail,
    events (initialize w m) =
      map (fun x => Call x Initialize) start_order ++ tail /\
    initializations tail = [].
Proof.
  unfold_model. split_world; intros H; try discriminate;
    eexists; split; reflexivity.
Qed.

Lemma initialize_order (w : World) (m : Memory) :
  exists k, initializations (events (initialize w m)) = firstn k start_order.
Proof.
  unfold_model.
  split_world;
    first [ exists 0; reflexivity | exists 1; reflexivity
          | exists 2; reflexivity | exists 3; reflexivity ].
Qed.

Lemma initialize_registers_late (w : World) (m : Memory) :
  all_initialized w = false ->
  registrations (events (initialize w m)) = [].
Proof.
  unfold_model. split_world; intros H; try discriminate; reflexivity.
Qed.

Lemma initialize_registers_four (w : World) (m : Memory) :
  result (initialize w m) = Returned true ->
  registrations (events (initialize w m)) =
    [(ConnectionAcceptor, SetAcceptCallback);
     (ConnectionAcceptor, SetErrorCallback);
     (SessionManager, SetSessionCallback);
     (MessageBroadcaster, SetBroadcastCallback)].
Proof.
  unfold_model. split_world; intros H; try discriminate; reflexivity.
Qed.

Lemma initialize_failure_without_throwing_registration
      (w : World) (m : Memory) :
  result (initialize w m) = Returned false ->
  (forall c s, In (c, s) (registrations (events (initialize w m))) ->
               returns (behaviour w c s) = true) ->
  registrations (events (initialize w m)) = [].
Proof.
  unfold_model. split_world; intros H Hreg; try discriminate;
    try reflexivity; exfalso;
    match goal with
    | E : behaviour w ?c ?s = Throws _ |- _ =>
        assert (Hr : returns (behaviour w c s) = true)
          by (apply Hreg; simpl; tauto);
        rewrite E in Hr; discriminate
    end.
Qed.

Lemma calls_of_initializations (l : list Component) (t : LogLine) :
  calls (map (fun x => Call x Initialize) l ++ [Log t]) =
  map (fun x => (x, Initialize)) l.
Proof.
  unfold calls. induction l as [|y l IH]; simpl; [|rewrite IH]; reflexivity.
Qed.

Lemma initializations_of_initializations (l : list Component) (t : LogLine) :
  initializations (map (fun x => Call x Initialize) l ++ [Log t]) = l.
Proof.
  unfold initializations.
  induction l as [|y l IH]; simpl; [|rewrite IH]; reflexivity.
Qed.

Lemma stops_of_initializations (l : list Component) (t : LogLine) :
  stops (map (fun x => Call x Initialize) l ++ [Log t]) = [].
Proof.
  unfold stops. induction l as [|y l IH]; simpl; [|rewrite IH]; reflexivity.
Qed.

(** C7. [initialize] calls the component initializations in the fixed
    order acceptor, broadcaster, collector (the calls issued always form
    an initial part of that order, and all three are issued first when
    each returns [true]).  At the first component whose [initialize()]
    returns [false] it returns [false] with the memory untouched: the
    only calls issued are the initializations up to and including that
    component, followed by the initialization-error report; no later
    component is initialized, nothing is stopped or rolled back, no
    callback is registered. *)
Theorem initialize_stops_at_first_refusal (w : World) (m : Memory) :
  (exists k, initializations (events (initialize w m)) = firstn k start_order) /\
  (all_initialized w = true ->
   exists tail,
     events (initialize w m) =
       map (fun x => Call x Initialize) start_order ++ tail /\
     initializations tail = []) /\
  (forall c,
      first_refusal w = Some c ->
      result (initialize w m) = Returned false /\
      memory (initialize w m) = m /\
      initializations (events (initialize w m)) =
        initialized_components w ++ [c] /\
      calls (events (initialize w m)) =
        map (fun x => (x, Initialize)) (initialized_components w ++ [c]) /\
      stops (events (initialize w m)) = [] /\
      registrations (events (initialize w m)) = [] /\
      exists name reason,
        events (initialize w m) =
          map (fun x => Call x Initialize) (initialized_components w ++ [c])
            ++ [Log (InitializationError name reason)]).
Proof.
  split; [apply initialize_order|].
  split; [apply initialize_all_initialized|].
  intros c Hc.
  destruct (initialize_refused w m Hc) as (name & reason & Hrun).
  rewrite Hrun. cbn [result memory events fst snd]. clear Hrun.
  unfold registrations.
  rewrite calls_of_initializations, initializations_of_initializations,
    stops_of_initializations.
  repeat split; auto.
  - induction (initialized_components w ++ [c]) as [|y l IH];
      [reflexivity | exact IH].
  - exists name, reason. reflexivity.
Qed.

Lemma initialize_stops_at_first_refusal_witness :
  first_refusal (override healthy MessageBroadcaster Initialize (Returns false))
    = Some MessageBroadcaster /\
  result (initialize (override healthy MessageBroadcaster Initialize (Returns false))
                     fresh) = Returned false /\
  calls (events (initialize
                   (override healthy MessageBroadcaster Initialize (Returns false))
                   fresh))
    = [(ConnectionAcceptor, Initialize); (MessageBroadcaster, Initialize)].
Proof.
  destruct (initialize_stops_at_first_refusal
              (override healthy MessageBroadcaster Initialize (Returns false))
              fresh) as (_ & _ & Hrefusal).
  destruct (Hrefusal MessageBroadcaster eq_refl)
    as (Hres & _ & _ & Hcalls & _).
  split; [reflexivity|]. split; [exact Hres | exact Hcalls].
Defined.

(** C10 (as the code has it). [initialize] issues a callback
    registration only after the three component initializations have
    returned [true]; when it returns [true] it has issued exactly the four
    registrations accept, connection error, session event, broadcast
    completion.  When one of the initializations does not succeed, no
    registration is issued at all; and when [initialize] returns [false]
    and no registration call has thrown, no registration has been
    issued. *)
Theorem callbacks_registered_after_initializations
        (w : World) (m : Memory) :
  (registrations (events (initialize w m)) <> [] ->
   all_initialized w = true /\
   exists tail,
     events (initialize w m) =
       map (fun x => Call x Initialize) start_order ++ tail /\
     initializations tail = []) /\
  (all_initialized w = false ->
   registrations (events (initialize w m)) = []) /\
  (result (initialize w m) = Returned true ->
   registrations (events (initialize w m)) =
     [(ConnectionAcceptor, SetAcceptCallback);
      (ConnectionAcceptor, SetErrorCallback);
      (SessionManager, SetSessionCallback);
      (MessageBroadcaster, SetBroadcastCallback)]) /\
  (result (initialize w m) = Returned false ->
   (forall c s, In (c, s) (registrations (events (initialize w m))) ->
                returns (behaviour w c s) = true) ->
   registrations (events (initialize w m)) = [] /\
   wired w (events (initialize w m)) = []).
Proof.
  split; [|split; [|split]].
  - intros Hreg. destruct (all_initialized w) eqn:Hall.
    + split; [reflexivity|]. apply initialize_all_initialized. exact Hall.
    + exfalso. apply Hreg. apply initialize_registers_late. exact Hall.
  - apply initialize_registers_late.
  - apply initialize_registers_four.
  - intros Hres Hreg.
    assert (H := initialize_failure_without_throwing_registration w m Hres Hreg).
    unfold wired. rewrite H. split; reflexivity.
Qed.

Lemma callbacks_registered_after_initializations_witness :
  all_initialized (override healthy StatisticsCollector Initialize
                            (Throws StdException)) = false /\
  result (initialize (override healthy StatisticsCollector Initialize
                               (Throws StdException)) fresh) = Returned false /\
  registrations
    (events (initialize (override healthy StatisticsCollector Initialize
                                  (Throws StdException)) fresh)) = [] /\
  registrations (events (initialize healthy fresh)) =
     [(ConnectionAcceptor, SetAcceptCallback);
      (ConnectionAcceptor, SetErrorCallback);
      (SessionManager, SetSessionCallback);
      (MessageBroadcaster, SetBroadcastCallback)].
Proof.
  destruct (callbacks_registered_after_initializations
              (override healthy StatisticsCollector Initialize
                        (Throws StdException)) fresh)
    as (_ & Hlate & _ & Hfail).
  destruct (callbacks_registered_after_initializations healthy fresh)
    as (_ & _ & Hfour & _).
  split; [reflexivity|]. split; [reflexivity|].
  split; [exact (Hlate eq_refl) | exact (Hfour eq_refl)].
Defined.

(** C10 (as worded) fails: the three initializations succeed, the accept
    callback is registered, and the registration of the error callback
    throws.  [initialize] catches the exception and returns [false]; the
    accept callback stays registered. *)
Lemma failed_initialize_keeps_accept_callback :
  all_initialized error_callback_registration_throws = true /\
  result (initialize error_callback_registration_throws fresh)
    = Returned false /\
  wired error_callback_registration_throws
        (events (initialize error_callback_registration_throws fresh))
    = [(ConnectionAcceptor, SetAcceptCallback)] /\
  ~ failed_initialize_wires_nothing error_callback_registration_throws fresh.
Proof.
  repeat split. intros H. specialize (H eq_refl). vm_compute in H. discriminate.
Qed.

(* ===================================================================== *)
(** ** Properties of the process entry point *)
(* ===================================================================== *)

(** [main] returns 0 exactly after the three lifecycle calls have gone
    through, and the only other exit code is 1. *)
Lemma exit_codes_of_main (c : Main.MasterController) (code : Z) :
  Main.exit_status (Main.main c) = Main.Exit code ->
  (code = 0%Z /\
   Main.initialize c = Returns true /\ Main.start c = Returns true /\
   Main.run c = Main.Completes) \/
  (code = 1%Z /\
   (Main.initialize c = Returns false \/
    Main.initialize c = Returns true /\ Main.start c = Returns false)).
Proof.
  unfold Main.main, Main.exit_status.
  destruct (Main.initialize c) as [[|]|e]; cbn.
  - destruct (Main.start c) as [[|]|e]; cbn.
    + destruct (Main.run c); cbn; intros H; inversion H; subst. left. auto.
    + intros H; inversion H; subst. right. auto.
    + discriminate.
  - intros H; inversion H; subst. right. auto.
  - discriminate.
Qed.

(** C8. [main] returns exit code 0 on a clean shutdown, that is when the
    controller's [initialize()] and [start()] return [true] and [run()]
    comes back; it returns exit code 1, which is not zero, when
    [initialize()] returns [false], and when [start()] (called after
    [initialize()] returned [true]) returns [false].  These are its only
    exit codes, and 0 is returned on a clean shutdown only. *)
Theorem main_exit_code (c : Main.MasterController) :
  (Main.initialize c = Returns true ->
   Main.start c = Returns true ->
   Main.run c = Main.Completes ->
   Main.exit_status (Main.main c) = Main.Exit 0) /\
  (Main.initialize c = Returns false ->
   Main.exit_status (Main.main c) = Main.Exit 1) /\
  (Main.initialize c = Returns true ->
   Main.start c = Returns false ->
   Main.exit_status (Main.main c) = Main.Exit 1) /\
  (Main.exit_status (Main.main c) = Main.Exit 0 ->
   Main.initialize c = Returns true /\ Main.start c = Returns true /\
   Main.run c = Main.Completes) /\
  (forall code, Main.exit_status (Main.main c) = Main.Exit code ->
                code = 0%Z \/ code = 1%Z).
Proof.
  unfold Main.main, Main.exit_status. repeat split.
  - intros -> -> ->. reflexivity.
  - intros ->. reflexivity.
  - intros -> ->. reflexivity.
  - destruct (exit_codes_of_main c H) as [(_ & Hi & _)|(Hone & _)];
      [exact Hi | discriminate].
  - destruct (exit_codes_of_main c H) as [(_ & _ & Hs & _)|(Hone & _)];
      [exact Hs | discriminate].
  - destruct (exit_codes_of_main c H) as [(_ & _ & _ & Hr)|(Hone & _)];
      [exact Hr | discriminate].
  - intros code H. destruct (exit_codes_of_main c H) as [(Hz & _)|(Hone & _)]; auto.
Qed.

Lemma main_exit_code_witness :
  Main.exit_status (Main.main Main.well_behaved) = Main.Exit 0 /\
  Main.exit_status
    (Main.main (Main.with_initialize (Returns false) Main.well_behaved))
    = Main.Exit 1 /\
  Main.exit_status
    (Main.main (Main.with_start (Returns false) Main.well_behaved))
    = Main.Exit 1.
Proof.
  destruct (main_exit_code Main.well_behaved) as (Hclean & _).
  destruct (main_exit_code
              (Main.with_initialize (Returns false) Main.well_behaved))
    as (_ & Hinit & _).
  destruct (main_exit_code
              (Main.with_start (Returns false) Main.well_behaved))
    as (_ & _ & Hstart & _).
  split; [exact (Hclean eq_refl eq_refl eq_refl)|].
  split; [exact (Hinit eq_refl) | exact (Hstart eq_refl eq_refl)].
Defined.

(* ===================================================================== *)
(** ** Further properties of the lifecycle manager *)
(* ===================================================================== *)

Import Script.

(** Splits a hypothesis [In e l] on a computed list into its cases. *)
Ltac in_cases H :=
  simpl in H;
  repeat (destruct H as [H|H]; [try discriminate|]);
  try contradiction.

(** *** [initialize] *)

(** X1. [initialize] reads and writes none of the manager's memory: the
    running and shutdown-requested flags are left as they were and no
    store is issued.  The only component methods it ever calls are
    [initialize()] and the four callback setters; it starts nothing and
    stops nothing, however it ends. *)
Theorem initialize_only_initializes_and_registers (w : World) (m : Memory) :
  memory (initialize w m) = m /\
  (forall f b, ~ In (Store f b) (events (initialize w m))) /\
  (forall c mt,
      In (c, mt) (calls (events (initialize w m))) ->
      mt = Initialize \/ is_registration mt = true).
Proof.
  unfold_model. split_world; simpl; repeat split;
    try match goal with
        | |- forall (f : Flag) (b : bool), _ => intros f b H; in_cases H
        | |- forall (c : Component) (mt : Method), _ =>
            intros c mt H; in_cases H; injection H as <- <-; auto
        end.
Qed.

Lemma initialize_only_initializes_and_registers_witness :
  In (MessageBroadcaster, SetBroadcastCallback)
     (calls (events (initialize healthy fresh))) /\
  (SetBroadcastCallback = Initialize \/
   is_registration SetBroadcastCallback = true).
Proof.
  assert (H : In (MessageBroadcaster, SetBroadcastCallback)
                 (calls (events (initialize healthy fresh)))).
  { cbn. auto 10. }
  split; [exact H|].
  destruct (initialize_only_initializes_and_registers healthy fresh)
    as (_ & _ & Hcalls).
  exact (Hcalls MessageBroadcaster SetBroadcastCallback H).
Defined.

(** X2. [initialize] returns [true] exactly when the three component
    initializations return [true] and the four callback registrations
    (on pointers that are set) come back; what it has done then is
    exactly: the three initializations in order, the four registrations
    in order, and the initialized status line. *)
Theorem initialize_succeeds_iff (w : World) (m : Memory) :
  (result (initialize w m) = Returned true <->
   all_initialized w = true /\ plan_unhindered w callback_plan = true) /\
  (result (initialize w m) = Returned true ->
   events (initialize w m) =
     map (fun c => Call c Initialize) start_order ++
     map (fun cm => Call (fst cm) (snd cm)) callback_plan ++
     [Log (Status SERVER_INITIALIZED)]).
Proof.
  unfold callback_plan. unfold_model.
  split_world; simpl; repeat split; intros;
    try discriminate; try reflexivity;
    match goal with
    | H : _ /\ _ |- _ => destruct H; discriminate
    end.
Qed.

Lemma initialize_succeeds_iff_witness :
  all_initialized healthy = true /\
  plan_unhindered healthy callback_plan = true /\
  result (initialize healthy fresh) = Returned true /\
  plan_unhindered (without healthy SessionManager) callback_plan = false /\
  result (initialize (without healthy SessionManager) fresh) <> Returned true.
Proof.
  destruct (initialize_succeeds_iff healthy fresh) as [Hiff _].
  destruct (initialize_succeeds_iff (without healthy SessionManager) fresh)
    as [Hiff' _].
  split; [reflexivity|]. split; [reflexivity|].
  split; [apply Hiff; split; reflexivity|].
  split; [reflexivity|].
  intros H. apply Hiff' in H. destruct H as [_ H]. discriminate.
Defined.

(** X3. No failure of [initialize] is silent and no [std::exception]
    leaves it: whenever it returns [false], exactly one error report was
    made and it is the last thing [initialize] did (an initialization
    error naming the component that refused, or the fatal exception
    report); when it returns [true] no error was reported. *)
Theorem initialize_failure_is_reported (w : World) (m : Memory) :
  result (initialize w m) <> Thrown StdException /\
  (result (initialize w m) = Returned false ->
   exists pre line,
     events (initialize w m) = pre ++ [Log line] /\
     reports (events (initialize w m)) = [line] /\
     ((exists component reason, line = InitializationError component reason) \/
      line = ExceptionReport INIT_FAILED_EXCEPTION FATAL)) /\
  (result (initialize w m) = Returned true ->
   reports (events (initialize w m)) = []).
Proof.
  unfold_model. split_world; simpl; repeat split; try discriminate;
    try reflexivity; intros _;
    match goal with
    | |- exists pre line, ?l = _ /\ _ =>
        exists (removelast l), (match last l (Store Running true) with
                                | Log line => line
                                | _ => Note ""
                                end)
    end; simpl; repeat split; eauto.
Qed.

Lemma initialize_failure_is_reported_witness :
  result (initialize (override healthy MessageBroadcaster Initialize
                               (Throws StdException)) fresh) = Returned false /\
  reports (events (initialize (override healthy MessageBroadcaster Initialize
                                        (Throws StdException)) fresh))
    = [ExceptionReport INIT_FAILED_EXCEPTION FATAL] /\
  reports (events (initialize healthy fresh)) = [].
Proof.
  destruct (initialize_failure_is_reported
              (override healthy MessageBroadcaster Initialize
                        (Throws StdException)) fresh) as (_ & Hfalse & _).
  destruct (initialize_failure_is_reported healthy fresh) as (_ & _ & Htrue).
  destruct (Hfalse eq_refl) as (pre & line & _ & Hrep & _).
  split; [reflexivity|]. split; [reflexivity|]. exact (Htrue eq_refl).
Defined.

(** *** [start] *)

(** The reports [start] makes through [utils::ErrorHandler]. *)
Lemma start_reports (w : World) (m : Memory) :
  running m = false ->
  (result (start w m) = Returned false ->
   exists line,
     reports (events (start w m)) = [line] /\
     ((exists text, line = SystemError (Literal text) ERROR) \/
      line = ExceptionReport START_FAILED_EXCEPTION FATAL)) /\
  (result (start w m) = Returned true ->
   reports (events (start w m)) = []).
Proof.
  intros Hr. known_not_running m Hr. unfold_model.
  split_world; simpl; split; intros; try discriminate; try reflexivity;
    eexists; split; try reflexivity; eauto.
Qed.

(** The critical line is printed by [start] exactly when a [stop()] it
    called threw. *)
Lemma start_critical_line_iff (w : World) (m : Memory) :
  In (Log rollback_failed) (events (start w m)) <->
  exists x, In (Call x Stop) (events (start w m)) /\
            returns (behaviour w x Stop) = false.
Proof.
  destruct (running m) eqn:Hr.
  - rewrite (start_when_running w m Hr). cbn. split.
    + intros [HH|[]]. discriminate.
    + intros (x & [HH|[]] & _). discriminate.
  - known_not_running m Hr. unfold rollback_failed. unfold_model.
    split_world; simpl; split; intros HH;
      try (simpl; tauto);
      try (exfalso; repeat (destruct HH as [HH|HH]; [discriminate|]);
           exact HH);
      try (match goal with
           | E : behaviour w ?c Stop = Throws _ |- _ =>
               exists c; split; [simpl; tauto | rewrite E; reflexivity]
           end);
      destruct HH as (x & HH & Hx);
      repeat (destruct HH as [HH|HH];
              [try discriminate;
               injection HH as <-;
               match goal with
               | E : behaviour w ?c Stop = _ |- _ =>
                   rewrite E in Hx; discriminate
               end|]);
      contradiction.
Qed.

(** X4. No failure of [start] is silent: called with the running flag
    false, whenever it returns [false] it has made exactly one report
    through [utils::ErrorHandler], either that a named component's start
    failed (severity ERROR) or the fatal exception report.  The rollback
    adds its critical line on [std::cout] exactly when a [stop()] that
    [start] called threw.  When [start] returns [true] it has made no
    report and printed no critical line. *)
Theorem start_failure_is_reported (w : World) (m : Memory) :
  running m = false ->
  (result (start w m) = Returned false ->
   exists line,
     reports (events (start w m)) = [line] /\
     ((exists text, line = SystemError (Literal text) ERROR) \/
      line = ExceptionReport START_FAILED_EXCEPTION FATAL)) /\
  (result (start w m) = Returned true ->
   reports (events (start w m)) = [] /\
   ~ In (Log rollback_failed) (events (start w m))) /\
  (In (Log rollback_failed) (events (start w m)) <->
   exists x, In (Call x Stop) (events (start w m)) /\
             returns (behaviour w x Stop) = false).
Proof.
  intros Hr. destruct (start_reports w m Hr) as [Hfalse Htrue].
  split; [exact Hfalse|]. split; [|apply start_critical_line_iff].
  intros Hres. split; [exact (Htrue Hres)|].
  intros Hin. destruct (start_after_failed_rollback w m Hr Hin) as [Hf _].
  rewrite Hres in Hf. discriminate.
Qed.

Lemma start_failure_is_reported_witness :
  running fresh = false /\
  result (start broadcaster_stop_throws_in_rollback fresh) = Returned false /\
  reports (events (start broadcaster_stop_throws_in_rollback fresh))
    = [SystemError (Literal "Statistics collector start failed") ERROR] /\
  In (Call MessageBroadcaster Stop)
     (events (start broadcaster_stop_throws_in_rollback fresh)) /\
  returns (behaviour broadcaster_stop_throws_in_rollback MessageBroadcaster Stop)
    = false /\
  In (Log rollback_failed)
     (events (start broadcaster_stop_throws_in_rollback fresh)).
Proof.
  destruct (start_failure_is_reported broadcaster_stop_throws_in_rollback
              fresh eq_refl) as (Hfalse & _ & Hcrit).
  destruct (Hfalse eq_refl) as (line & Hrep & _).
  assert (Hcall : In (Call MessageBroadcaster Stop)
            (events (start broadcaster_stop_throws_in_rollback fresh))).
  { cbn. auto 10. }
  split; [reflexivity|]. split; [reflexivity|]. split; [reflexivity|].
  split; [exact Hcall|]. split; [reflexivity|].
  apply Hcrit. exists MessageBroadcaster. split; [exact Hcall | reflexivity].
Defined.

(** X5. The only exceptions that leave [start] are those a component's
    [start()] throws that are not derived from [std::exception]; an
    exception from a [stop()] never leaves it.  When one does leave, no
    rollback has taken place: the components started so far stay started
    (no [stop()] was called) and the running flag is still false. *)
Theorem start_lets_only_foreign_exceptions_through
        (w : World) (m : Memory) (e : Exn) :
  result (start w m) = Thrown e ->
  e = OtherException /\
  running m = false /\
  running (memory (start w m)) = false /\
  stops (events (start w m)) = [] /\
  exists c,
    start_failure w = Some c /\
    behaviour w c Start = Throws OtherException /\
    calls (events (start w m)) =
      map (fun x => (x, Start)) (started_components w ++ [c]).
Proof.
  destruct (running m) eqn:Hr.
  - rewrite (start_when_running w m Hr). discriminate.
  - known_not_running m Hr. unfold_model.
    split_world; simpl; intros H; try discriminate;
      repeat split; try congruence;
      eexists; repeat split; eauto.
Qed.

Lemma start_lets_only_foreign_exceptions_through_witness :
  result (start broadcaster_start_throws_other fresh) = Thrown OtherException /\
  stops (events (start broadcaster_start_throws_other fresh)) = [] /\
  started_components broadcaster_start_throws_other = [ConnectionAcceptor].
Proof.
  destruct (start_lets_only_foreign_exceptions_through
              broadcaster_start_throws_other fresh (e := OtherException) eq_refl)
    as (_ & _ & _ & Hstops & _).
  split; [reflexivity|]. split; [exact Hstops | reflexivity].
Defined.

(** [start] never writes the shutdown-requested flag. *)
Lemma start_keeps_shutdown_requested (w : World) (m : Memory) :
  shutdown_requested (memory (start w m)) = shutdown_requested m.
Proof.
  destruct (running m) eqn:Hr.
  - rewrite (start_when_running w m Hr). reflexivity.
  - known_not_running m Hr. unfold_start.
    follow_start; simpl; reflexivity.
Qed.

Lemma stop_shutdown_requested (w : World) (m : Memory) :
  shutdown_requested (memory (stop w m)) =
    (running m || shutdown_requested m)%bool.
Proof.
  destruct (running m) eqn:Hr.
  - destruct (stop_when_running w m Hr) as (_ & _ & _ & H & _).
    rewrite H. reflexivity.
  - rewrite (stop_when_not_running w m Hr). reflexivity.
Qed.

(** X6. A second [start] after a successful one does nothing: once
    [start], entered with the running flag false, has returned [true],
    any further [start] returns [true] with the memory unchanged and
    calls no component, whatever the components would do. *)
Theorem start_after_successful_start_does_nothing
        (w w' : World) (m : Memory) :
  running m = false ->
  result (start w m) = Returned true ->
  start w' (memory (start w m)) =
    (Returned true, memory (start w m),
     [Log (SystemError SERVER_ALREADY_RUNNING WARNING)]).
Proof.
  intros Hr Hres. apply start_when_running.
  destruct (start_sets_running_iff w m Hr) as (_ & Hmem & Hret).
  apply Hmem, Hret, Hres.
Qed.

Lemma start_after_successful_start_does_nothing_witness :
  running fresh = false /\
  result (start healthy fresh) = Returned true /\
  calls (events (start acceptor_stop_throws (memory (start healthy fresh)))) = [].
Proof.
  split; [reflexivity|]. split; [reflexivity|].
  rewrite (start_after_successful_start_does_nothing
             healthy acceptor_stop_throws fresh eq_refl eq_refl).
  reflexivity.
Defined.

(** X7. After a [start] that did not succeed, [stop] does nothing: the
    running flag is false, so [stop] returns at once and calls no
    component.  In particular the components that a rollback cut short by
    a throwing [stop()] left started are not stopped by a later
    [stop]. *)
Theorem stop_after_failed_start_does_nothing
        (w w' : World) (m : Memory) :
  running m = false ->
  result (start w m) <> Returned true ->
  stop w' (memory (start w m)) = (Returned tt, memory (start w m), []).
Proof.
  intros Hr Hres. apply stop_when_not_running.
  destruct (start_sets_running_iff w m Hr) as (_ & Hmem & Hret).
  destruct (running (memory (start w m))); [|reflexivity].
  exfalso. apply Hres, Hret, Hmem. reflexivity.
Qed.

Lemma stop_after_failed_start_does_nothing_witness :
  running fresh = false /\
  result (start broadcaster_stop_throws_in_rollback fresh) = Returned false /\
  In ConnectionAcceptor (started_components broadcaster_stop_throws_in_rollback) /\
  ~ In ConnectionAcceptor
       (stops (events (start broadcaster_stop_throws_in_rollback fresh))) /\
  calls (events (stop healthy
                      (memory (start broadcaster_stop_throws_in_rollback fresh))))
    = [].
Proof.
  split; [reflexivity|]. split; [reflexivity|].
  split; [cbn; auto|].
  split; [cbn; intros [H|[]]; discriminate|].
  rewrite (stop_after_failed_start_does_nothing
             broadcaster_stop_throws_in_rollback healthy fresh eq_refl).
  - reflexivity.
  - discriminate.
Defined.

(** X8. A restart after [stop] works, but nothing resets the
    shutdown-requested flag: when [stop] has found the running flag true
    and a later [start] finds all three components starting, that
    [start] returns [true] and leaves the running flag and the
    shutdown-requested flag both true. *)
Theorem restart_leaves_shutdown_requested_set
        (w w' : World) (m : Memory) :
  running m = true ->
  all_started w' = true ->
  result (start w' (memory (stop w m))) = Returned true /\
  running (memory (start w' (memory (stop w m)))) = true /\
  shutdown_requested (memory (start w' (memory (stop w m)))) = true.
Proof.
  intros Hr Hall.
  pose proof (stop_leaves_not_running w m) as Hoff.
  destruct (start_sets_running_iff w' (memory (stop w m)) Hoff)
    as (_ & Hmem & Hret).
  split; [apply Hret, Hall|]. split; [apply Hmem, Hall|].
  rewrite start_keeps_shutdown_requested, stop_shutdown_requested, Hr.
  reflexivity.
Qed.

Lemma restart_leaves_shutdown_requested_set_witness :
  running serving = true /\
  all_started healthy = true /\
  running (memory (start healthy (memory (stop healthy serving)))) = true /\
  shutdown_requested (memory (start healthy (memory (stop healthy serving))))
    = true.
Proof.
  destruct (restart_leaves_shutdown_requested_set healthy healthy serving
              eq_refl eq_refl) as (_ & Hrun & Hshut).
  split; [reflexivity|]. split; [reflexivity|].
  split; [exact Hrun | exact Hshut].
Defined.

(** *** [stop] *)



(** *** [rollbackStartedComponents], for any flags *)

Lemma calls_rollback_events (w : World) (l : list Component) :
  calls (rollback_events w l) = map (fun x => (x, Stop)) (until_throw w l).
Proof.
  unfold calls. induction l as [|y l IH]; simpl.
  - reflexivity.
  - destruct (behaviour w y Stop); simpl.
    + destruct (rolled_back y); simpl; rewrite IH; reflexivity.
    + reflexivity.
Qed.

Lemma logs_rollback_events (w : World) (l : list Component) :
  logs (rollback_events w l) =
    rolled_back_lines (stopped_before_throw w l) ++
    [if stops_return w l then rollback_completed else rollback_failed].
Proof.
  unfold logs, rolled_back_lines, stops_return.
  induction l as [|y l IH]; simpl.
  - reflexivity.
  - destruct (behaviour w y Stop); simpl.
    + destruct (rolled_back y); simpl; rewrite IH; reflexivity.
    + reflexivity.
Qed.

Lemma until_throw_prefix (w : World) (l : list Component) :
  exists rest, l = until_throw w l ++ rest.
Proof.
  induction l as [|y l [rest IH]]; simpl.
  - exists []. reflexivity.
  - destruct (behaviour w y Stop).
    + exists rest. simpl. rewrite <- IH. reflexivity.
    + exists l. reflexivity.
Qed.

(** X10. For every combination of its three flags, and whatever the
    components do, [rollbackStartedComponents] calls nothing but
    [stop()]; it goes through the components whose flag is true and whose
    pointer is set in the order collector, broadcaster, acceptor, and ends
    at the first [stop()] that throws.  It logs one "Rolled back" line for
    each [stop()] that returned and then exactly one closing line: the
    completion line when no [stop()] threw, the critical line
    otherwise. *)
Theorem rollback_stops_and_reports_in_order
        (w : World) (a b c : bool) (m : Memory) :
  calls (events (rollbackStartedComponents w a b c m)) =
    map (fun x => (x, Stop)) (until_throw w (rollback_targets w a b c)) /\
  (exists rest,
     rollback_targets w a b c =
       stops (events (rollbackStartedComponents w a b c m)) ++ rest) /\
  (forall x,
      In x (stops (events (rollbackStartedComponents w a b c m))) ->
      In x rollback_order /\ ledger_flag a b c x = true /\ present w x = true) /\
  logs (events (rollbackStartedComponents w a b c m)) =
    rolled_back_lines (stopped_before_throw w (rollback_targets w a b c)) ++
    [if stops_return w (rollback_targets w a b c)
     then rollback_completed else rollback_failed].
Proof.
  rewrite rollback_run. cbn [events snd].
  rewrite calls_rollback_events, logs_rollback_events, stops_rollback_events.
  repeat split.
  - apply until_throw_prefix.
  - destruct (until_throw_prefix w (rollback_targets w a b c)) as [rest Hrest].
    assert (Hin : In x (rollback_targets w a b c)).
    { rewrite Hrest. apply in_or_app. left. assumption. }
    unfold rollback_targets in Hin. apply filter_In in Hin. apply Hin.
  - destruct (until_throw_prefix w (rollback_targets w a b c)) as [rest Hrest].
    assert (Hin : In x (rollback_targets w a b c)).
    { rewrite Hrest. apply in_or_app. left. assumption. }
    apply rollback_targets_flag in Hin. apply Hin.
  - destruct (until_throw_prefix w (rollback_targets w a b c)) as [rest Hrest].
    assert (Hin : In x (rollback_targets w a b c)).
    { rewrite Hrest. apply in_or_app. left. assumption. }
    apply rollback_targets_flag in Hin. apply Hin.
Qed.

Lemma rollback_stops_and_reports_in_order_witness :
  In StatisticsCollector
     (stops (events (rollbackStartedComponents acceptor_stop_throws
                       true false true fresh))) /\
  ledger_flag true false true StatisticsCollector = true /\
  logs (events (rollbackStartedComponents acceptor_stop_throws
                  true false true fresh)) =
    [Note "Rolled back statistics collector"; rollback_failed].
Proof.
  destruct (rollback_stops_and_reports_in_order acceptor_stop_throws
              true false true fresh) as (_ & _ & Hflag & Hlogs).
  assert (Hin : In StatisticsCollector
     (stops (events (rollbackStartedComponents acceptor_stop_throws
                       true false true fresh)))).
  { cbn. auto. }
  split; [exact Hin|]. split; [apply (Hflag _ Hin)|]. exact Hlogs.
Defined.

(** *** Any sequence of lifecycle calls *)

(** The stores a single call can make. *)
Lemma perform_stores (op : Operation) (w : World) (m : Memory)
      (f : Flag) (b : bool) :
  In (Store f b) (events (perform op w m)) ->
  (op = CallStart /\ f = Running /\ b = true /\ running m = false) \/
  (op = CallStop /\ running m = true /\
   ((f = ShutdownRequested /\ b = true) \/ (f = Running /\ b = false))).
Proof.
  destruct op; unfold perform.
  - unfold_model. split_world; simpl; intros H; in_cases H.
  - destruct (running m) eqn:Hr.
    + rewrite (start_when_running w m Hr). simpl. intros H; in_cases H.
    + known_not_running m Hr. unfold_model.
      split_world; simpl; intros H; in_cases H;
        injection H as <- <-; left; auto.
  - destruct (running m) eqn:Hr.
    + unfold_model. rewrite Hr.
      split_world; simpl; intros H; in_cases H;
        injection H as <- <-; right; auto.
    + rewrite (stop_when_not_running w m Hr). simpl. intros [].
Qed.

Lemma perform_shutdown_requested (op : Operation) (w : World) (m : Memory) :
  shutdown_requested m = true ->
  shutdown_requested (memory (perform op w m)) = true.
Proof.
  intros Hs. destruct op; unfold perform.
  - assert (H : memory (initialize w m) = m).
    { unfold_model. split_world; reflexivity. }
    destruct (initialize w m) as [[[r|e|c] m'] evs]; cbn in *; congruence.
  - pose proof (start_keeps_shutdown_requested w m) as H.
    destruct (start w m) as [[[r|e|c] m'] evs]; cbn in *; congruence.
  - rewrite stop_shutdown_requested, Hs. apply orb_true_r.
Qed.

Lemma perform_all_step (op : Operation) (w : World)
      (rest : list (Operation * World)) (m : Memory) :
  (perform_all ((op, w) :: rest) m =
     (memory (perform op w m), events (perform op w m))) \/
  (perform_all ((op, w) :: rest) m =
     (fst (perform_all rest (memory (perform op w m))),
      events (perform op w m) ++
      snd (perform_all rest (memory (perform op w m))))).
Proof.
  simpl. destruct (perform op w m) as [[[r|e|c] m1] e1]; cbn [memory events fst snd];
    try (right; destruct (perform_all rest m1); reflexivity).
  left. reflexivity.
Qed.

(** X11. Through any sequence of [initialize], [start] and [stop] calls,
    whatever the components do, the manager never stores [false] into the
    shutdown-requested flag: once the flag is true it stays true. *)
Theorem shutdown_requested_is_never_reset
        (script : list (Operation * World)) (m : Memory) :
  ~ In (Store ShutdownRequested false) (snd (perform_all script m)) /\
  (shutdown_requested m = true ->
   shutdown_requested (fst (perform_all script m)) = true).
Proof.
  revert m. induction script as [|[op w] rest IH]; intros m.
  - simpl. split; [intros [] | auto].
  - destruct (IH (memory (perform op w m))) as [IHev IHmem].
    assert (Hop : ~ In (Store ShutdownRequested false) (events (perform op w m))).
    { intros H. apply perform_stores in H.
      destruct H as [(_ & H & _)|(_ & _ & [(_ & H)|(H & _)])]; discriminate. }
    destruct (perform_all_step op w rest m) as [-> | ->]; cbn [fst snd].
    + split; [exact Hop|]. apply perform_shutdown_requested.
    + split.
      * intros H. apply in_app_or in H. destruct H; tauto.
      * intros Hs. apply IHmem, perform_shutdown_requested, Hs.
Qed.

Lemma shutdown_requested_is_never_reset_witness :
  shutdown_requested (memory (stop healthy serving)) = true /\
  shutdown_requested
    (fst (perform_all [(CallInitialize, healthy); (CallStart, healthy);
                       (CallStop, acceptor_stop_throws); (CallStart, healthy)]
                      (memory (stop healthy serving)))) = true.
Proof.
  split; [reflexivity|].
  apply (shutdown_requested_is_never_reset
           [(CallInitialize, healthy); (CallStart, healthy);
            (CallStop, acceptor_stop_throws); (CallStart, healthy)]
           (memory (stop healthy serving))).
  reflexivity.
Defined.

Lemma running_stores_app (b : bool) (l1 l2 : list Event) :
  running_stores b (l1 ++ l2) = running_stores b l1 + running_stores b l2.
Proof.
  unfold running_stores. rewrite filter_app, length_app. reflexivity.
Qed.

(** One call keeps the balance between the stores and the flag. *)
Lemma perform_balance (op : Operation) (w : World) (m : Memory) :
  flag_value (running m) + running_stores true (events (perform op w m)) =
  running_stores false (events (perform op w m)) +
  flag_value (running (memory (perform op w m))).
Proof.
  unfold running_stores.
  destruct op; unfold perform.
  - destruct (running m) eqn:Hr; unfold_model; rewrite ?Hr;
      split_world; simpl; rewrite ?Hr; reflexivity.
  - destruct (running m) eqn:Hr.
    + rewrite (start_when_running w m Hr). unfold memory, events. simpl.
      rewrite ?Hr. reflexivity.
    + known_not_running m Hr. unfold_model.
      split_world; simpl; reflexivity.
  - destruct (running m) eqn:Hr.
    + unfold_model. rewrite Hr. split_world; simpl; reflexivity.
    + rewrite (stop_when_not_running w m Hr). unfold memory, events. simpl.
      rewrite ?Hr. reflexivity.
Qed.

(** X12. Through any sequence of [initialize], [start] and [stop] calls,
    the stores into the running flag alternate: [true] is stored only
    when the flag is false and [false] only when it is true, so that the
    flag's initial value plus the number of [true] stores always equals
    the number of [false] stores plus its final value.  The teardown of
    [stop] therefore runs at most once per successful [start]. *)
Theorem running_stores_alternate
        (script : list (Operation * World)) (m : Memory) :
  flag_value (running m) + running_stores true (snd (perform_all script m)) =
  running_stores false (snd (perform_all script m)) +
  flag_value (running (fst (perform_all script m))) /\
  running_stores false (snd (perform_all script m)) <=
  flag_value (running m) + running_stores true (snd (perform_all script m)).
Proof.
  assert (H : flag_value (running m) +
              running_stores true (snd (perform_all script m)) =
              running_stores false (snd (perform_all script m)) +
              flag_value (running (fst (perform_all script m)))).
  { revert m. induction script as [|[op w] rest IH]; intros m.
    - simpl. unfold running_stores. simpl. lia.
    - pose proof (perform_balance op w m) as Hop.
      specialize (IH (memory (perform op w m))).
      destruct (perform_all_step op w rest m) as [-> | ->]; cbn [fst snd].
      + exact Hop.
      + rewrite !running_stores_app. lia. }
  split; [exact H | lia].
Qed.

(* ===================================================================== *)
(** ** Further properties of the process entry point *)
(* ===================================================================== *)



(** X14. The version line takes a version number apart correctly when
    the four constants follow the layout of the number: for non-negative
    fields with patch below the minor divisor [d] and minor below the
    minor modulo [n], and constants MAJOR_DIVISOR = d * n,
    MINOR_DIVISOR = PATCH_MODULO = d, MINOR_MODULO = n, the three numbers
    printed for major * (d * n) + minor * d + patch are major, minor and
    patch. *)
Theorem boost_version_fields_decode
        (d n major minor patch : Z) :
  (0 < d)%Z -> (0 < n)%Z ->
  (0 <= major)%Z -> (0 <= minor < n)%Z -> (0 <= patch < d)%Z ->
  Banner.boost_version_fields (Banner.boost_layout d n)
    (major * (d * n) + minor * d + patch) = (major, minor, patch).
Proof.
  intros Hd Hn Hmaj Hmin Hpat.
  unfold Banner.boost_version_fields, Banner.boost_layout. simpl.
  assert (Hv : (0 <= major * (d * n) + minor * d + patch)%Z) by nia.
  assert (Hlow : (0 <= minor * d + patch < d * n)%Z) by nia.
  rewrite !Z.quot_div_nonneg, !Z.rem_mod_nonneg; try lia.
  - f_equal; [f_equal|].
    + replace (major * (d * n) + minor * d + patch)%Z
        with (major * (d * n) + (minor * d + patch))%Z by ring.
      rewrite Z.div_add_l by nia. rewrite (Z.div_small _ _ Hlow). lia.
    + replace (major * (d * n) + minor * d + patch)%Z
        with ((major * n + minor) * d + patch)%Z by ring.
      rewrite Z.div_add_l by lia. rewrite (Z.div_small _ _ Hpat).
      rewrite Z.add_0_r.
      rewrite Z.add_comm, Z.mod_add by lia. apply Z.mod_small. lia.
    + replace (major * (d * n) + minor * d + patch)%Z
        with (patch + (major * n + minor) * d)%Z by ring.
      rewrite Z.mod_add by lia. apply Z.mod_small. lia.
  - apply Z.div_pos; lia.
Qed.

Lemma boost_version_fields_decode_witness :
  Banner.boost_version_fields (Banner.boost_layout 100 1000) 108300
    = (1%Z, 83%Z, 0%Z).
Proof.
  apply (@boost_version_fields_decode 100 1000 1 83 0); lia.
Defined.

(* ===================================================================== *)
(** ** Properties of the client's main window *)
(* ===================================================================== *)

Section WindowProperties.

Import Window.

Variable SonarDataPoint : Type.
Variable FailureKind : Type.
Variable parseJsonText : string -> ParseResult FailureKind * SonarDataPoint.
Variable toString : SonarDataPoint -> string.
Variable getErrorDescription : ParseResult FailureKind -> string.

#[local] Abbreviation UI := (Window.UI SonarDataPoint).
#[local] Abbreviation construct := (Window.construct SonarDataPoint).
#[local] Abbreviation deliver :=
  (Window.deliver parseJsonText toString getErrorDescription).
#[local] Abbreviation deliver_all :=
  (Window.deliver_all parseJsonText toString getErrorDescription).
#[local] Abbreviation session :=
  (Window.session parseJsonText toString getErrorDescription).
#[local] Abbreviation points_received := (Window.points_received parseJsonText).
#[local] Abbreviation ready := (Window.constructed SonarDataPoint).

Lemma construct_run :
  construct uninitialized =
    (Some tt, ready, actions (construct uninitialized)).
Proof. reflexivity. Qed.

(** What one signal makes a constructed window do. *)
Lemma deliver_ready (signal : Signal) :
  completed (deliver signal ready) = true /\
  window (deliver signal ready) = ready /\
  shown_states (actions (deliver signal ready)) =
    map widget_state_of (states_signalled [signal]) /\
  points_shown SonarData (actions (deliver signal ready)) =
    points_received [signal] /\
  points_shown SonarVisualization (actions (deliver signal ready)) =
    points_received [signal] /\
  connect_requests (actions (deliver signal ready)) = 0.
Proof.
  destruct signal; try (repeat split; reflexivity).
  unfold Window.deliver, Window.points_received, on_text_message.
  simpl. destruct (parseJsonText message) as [[|kind] point];
    repeat split; reflexivity.
Qed.

(** A handler hands data points to the two sonar widgets only. *)
Lemma deliver_ready_targets (signal : Signal) (target : Widget)
      (point : SonarDataPoint) :
  In (UpdateSonarData target point) (actions (deliver signal ready)) ->
  target = SonarData \/ target = SonarVisualization.
Proof.
  destruct signal;
    try (simpl; intros H;
         repeat (destruct H as [H|H]; [discriminate|]); contradiction).
  unfold Window.deliver, on_text_message. simpl.
  destruct (parseJsonText message) as [[|kind] pt]; simpl; intros H;
    repeat (destruct H as [H|H]; [try discriminate|]);
    try contradiction; injection H as <- _; auto.
Qed.

Lemma in_points_shown (target : Widget) (point : SonarDataPoint)
      (l : list (Action SonarDataPoint)) :
  In (UpdateSonarData target point) l -> In point (points_shown target l).
Proof.
  intros Hin. unfold points_shown. apply in_flat_map.
  exists (UpdateSonarData target point). split; [exact Hin|].
  replace (Widget_beq target target) with true; [left; reflexivity|].
  destruct target; reflexivity.
Qed.

Lemma and_then_run {A B} (x : UI A) (k : A -> UI B) (s s1 : MainWindow)
      (a : A) (a1 : list (Action SonarDataPoint)) :
  x s = (Some a, s1, a1) ->
  and_then x k s = (fst (fst (k a s1)), window (k a s1), a1 ++ actions (k a s1)).
Proof.
  intros H. unfold and_then. rewrite H.
  destruct (k a s1) as [[r s2] a2]. reflexivity.
Qed.

Lemma deliver_run (signal : Signal) :
  deliver signal ready = (Some tt, ready, actions (deliver signal ready)).
Proof.
  destruct (deliver_ready signal) as (Hc & Hw & _).
  destruct (deliver signal ready) as [[[[]|] s] a]; cbn in *.
  - rewrite Hw. reflexivity.
  - discriminate.
Qed.

Lemma shown_states_app (l1 l2 : list (Action SonarDataPoint)) :
  shown_states (l1 ++ l2) = shown_states l1 ++ shown_states l2.
Proof. apply flat_map_app. Qed.

Lemma points_shown_app (t : Widget) (l1 l2 : list (Action SonarDataPoint)) :
  points_shown t (l1 ++ l2) = points_shown t l1 ++ points_shown t l2.
Proof. apply flat_map_app. Qed.

Lemma connect_requests_app (l1 l2 : list (Action SonarDataPoint)) :
  connect_requests (l1 ++ l2) = connect_requests l1 + connect_requests l2.
Proof. unfold connect_requests. rewrite filter_app, length_app. reflexivity. Qed.

(** What a stream of signals makes a constructed window do. *)
Lemma deliver_all_ready (signals : list Signal) :
  deliver_all signals ready =
    (Some tt, ready, actions (deliver_all signals ready)) /\
  shown_states (actions (deliver_all signals ready)) =
    map widget_state_of (states_signalled signals) /\
  points_shown SonarData (actions (deliver_all signals ready)) =
    points_received signals /\
  points_shown SonarVisualization (actions (deliver_all signals ready)) =
    points_received signals /\
  connect_requests (actions (deliver_all signals ready)) = 0.
Proof.
  induction signals as [|signal rest (IHrun & IHs & IHd & IHv & IHc)].
  - repeat split; reflexivity.
  - destruct (deliver_ready signal) as (_ & _ & Hs & Hd & Hv & Hc).
    assert (Hstep : deliver_all (signal :: rest) ready =
              (Some tt, ready,
               actions (deliver signal ready) ++ actions (deliver_all rest ready))).
    { change (deliver_all (signal :: rest))
        with (and_then (deliver signal) (fun _ => deliver_all rest)).
      rewrite (@and_then_run _ _ _ _ _ _ _ _ (deliver_run signal)).
      rewrite IHrun. reflexivity. }
    rewrite Hstep. cbn [actions snd].
    rewrite shown_states_app, !points_shown_app, connect_requests_app.
    rewrite Hs, Hd, Hv, Hc, IHs, IHd, IHv, IHc.
    repeat split.
    + unfold states_signalled. simpl. rewrite app_nil_r, map_app. reflexivity.
    + unfold Window.points_received. simpl.
      rewrite app_nil_r. reflexivity.
    + unfold Window.points_received. simpl.
      rewrite app_nil_r. reflexivity.
Qed.

Lemma deliver_all_targets (signals : list Signal) (target : Widget)
      (point : SonarDataPoint) :
  In (UpdateSonarData target point) (actions (deliver_all signals ready)) ->
  target = SonarData \/ target = SonarVisualization.
Proof.
  induction signals as [|signal rest IH].
  - intros [].
  - change (deliver_all (signal :: rest))
      with (and_then (deliver signal) (fun _ => deliver_all rest)).
    rewrite (@and_then_run _ _ _ _ _ _ _ _ (deliver_run signal)).
    cbn [actions snd]. intros H. apply in_app_or in H.
    destruct H as [H|H]; [exact (deliver_ready_targets _ _ _ H) | exact (IH H)].
Qed.

Lemma session_run (signals : list Signal) :
  session signals uninitialized =
    (Some tt, ready,
     actions (construct uninitialized) ++ actions (deliver_all signals ready)).
Proof.
  change (session signals) with (and_then construct (fun _ => deliver_all signals)).
  rewrite (@and_then_run _ _ _ _ _ _ _ _ construct_run).
  destruct (deliver_all_ready signals) as (Hrun & _).
  rewrite Hrun. reflexivity.
Qed.

(** X15. A window never dereferences a null member: its constructor
    completes with all five members set and both handlers connected, and
    no stream of signals delivered afterwards makes a handler meet a null
    pointer or changes a member.  The window asks the client to connect
    exactly once: it is the last thing its constructor does, after both
    handlers have been connected; no signal makes it call the client
    again. *)
Theorem window_never_dereferences_null (signals : list Signal) :
  completed (session signals uninitialized) = true /\
  window (session signals uninitialized) = ready /\
  m_mainLayout ready = Some TheMainLayout /\
  m_connectionStatus ready = Some ConnectionStatus /\
  m_sonarDataWidget ready = Some SonarData /\
  m_sonarVisualizationWidget ready = Some SonarVisualization /\
  m_webSocketClient ready = Some WebSocketClient /\
  is_connected StateChangedHandler ready = true /\
  is_connected TextMessageHandler ready = true /\
  connect_requests (actions (session signals uninitialized)) = 1 /\
  (exists pre,
     actions (construct uninitialized) = pre ++ [ConnectToServer] /\
     In (Connect StateChangedHandler) pre /\
     In (Connect TextMessageHandler) pre /\
     connect_requests pre = 0) /\
  actions (session signals uninitialized) =
    actions (construct uninitialized) ++ actions (deliver_all signals ready) /\
  connect_requests (actions (deliver_all signals ready)) = 0.
Proof.
  rewrite session_run. cbn [completed window actions fst snd].
  rewrite connect_requests_app.
  destruct (deliver_all_ready signals) as (_ & _ & _ & _ & Hc).
  rewrite Hc.
  do 9 (split; [reflexivity|]).
  split; [reflexivity|]. split; [|split; reflexivity].
  exists (removelast (actions (construct uninitialized))).
  split; [reflexivity|]. split; [simpl; tauto|]. split; [simpl; tauto|].
  reflexivity.
Qed.

Lemma last_shown_state (l : list State) :
  last (DISCONNECTED :: map widget_state_of l) DISCONNECTED =
  widget_state_of (last l Disconnected).
Proof.
  induction l as [|x l IH].
  - reflexivity.
  - destruct l as [|y l]; [reflexivity|].
    change (last (DISCONNECTED :: map widget_state_of (x :: y :: l)) DISCONNECTED)
      with (last (widget_state_of y :: map widget_state_of l) DISCONNECTED).
    change (last (x :: y :: l) Disconnected) with (last (y :: l) Disconnected).
    rewrite <- IH. reflexivity.
Qed.

(** X16. The connection status widget is told DISCONNECTED at
    construction and then, for every [stateChanged] signal, the
    translation of the state it carries, in order, and nothing else.  So
    what it shows last is CONNECTED exactly when the last state signalled
    was [Connected], and DISCONNECTED when the last state signalled was
    [Disconnected] or [Closing] or when no state was signalled yet. *)
Theorem connection_display_follows_state_signals (signals : list Signal) :
  shown_states (actions (session signals uninitialized)) =
    DISCONNECTED :: map widget_state_of (states_signalled signals) /\
  (last (shown_states (actions (session signals uninitialized))) DISCONNECTED
     = CONNECTED <->
   last (states_signalled signals) Disconnected = Connected) /\
  (last (shown_states (actions (session signals uninitialized))) DISCONNECTED
     = DISCONNECTED <->
   last (states_signalled signals) Disconnected = Disconnected \/
   last (states_signalled signals) Disconnected = Closing).
Proof.
  assert (H : shown_states (actions (session signals uninitialized)) =
              DISCONNECTED :: map widget_state_of (states_signalled signals)).
  { rewrite session_run. cbn [actions snd]. rewrite shown_states_app.
    destruct (deliver_all_ready signals) as (_ & Hs & _).
    rewrite Hs. reflexivity. }
  rewrite H, last_shown_state.
  split; [reflexivity|].
  destruct (last (states_signalled signals) Disconnected); simpl;
    split; split; intros H'; try discriminate; try reflexivity; auto;
    destruct H'; discriminate.
Qed.

(** X17. The sonar data widget and the sonar visualization widget are
    handed exactly the same data points in the same order: the points of
    the text messages that parsed with SUCCESS, in arrival order.  A
    message that does not parse reaches neither widget, and no other
    widget is ever handed a data point. *)
Theorem sonar_widgets_show_the_parsed_points (signals : list Signal) :
  points_shown SonarData (actions (session signals uninitialized)) =
    points_received signals /\
  points_shown SonarVisualization (actions (session signals uninitialized)) =
    points_received signals /\
  (forall target point,
      In (UpdateSonarData target point) (actions (session signals uninitialized)) ->
      (target = SonarData \/ target = SonarVisualization) /\
      In point (points_received signals)).
Proof.
  rewrite session_run. cbn [actions snd].
  destruct (deliver_all_ready signals) as (_ & _ & Hd & Hv & _).
  rewrite !points_shown_app, Hd, Hv.
  split; [reflexivity|]. split; [reflexivity|].
  intros target point Hin. apply in_app_or in Hin.
  destruct Hin as [Hin|Hin].
  - exfalso. simpl in Hin.
    repeat (destruct Hin as [Hin|Hin]; [discriminate|]). exact Hin.
  - pose proof (in_points_shown _ _ _ Hin) as Hshown.
    destruct (deliver_all_targets _ _ _ Hin) as [-> | ->].
    + rewrite Hd in Hshown. auto.
    + rewrite Hv in Hshown. auto.
Qed.

(** X18. Nothing but a state change or a well-formed text message
    reaches the screen.  The signals the window connects no handler to
    ([connected], [disconnected], [binaryMessageReceived],
    [errorOccurred], [reconnectScheduled]) make it do nothing at all, so a
    client error is never displayed; and a text message that does not
    parse only produces two debug lines, the second carrying the parser's
    description of the failure and the message itself. *)
Theorem unhandled_signals_and_bad_messages_show_nothing (signal : Signal) :
  ((forall state, signal <> stateChanged state) ->
   (forall message, signal <> textMessageReceived message) ->
   deliver signal ready = (Some tt, ready, [])) /\
  (forall message,
      signal = textMessageReceived message ->
      fst (parseJsonText message) <> SUCCESS ->
      deliver signal ready =
        (Some tt, ready,
         [QDebug (MessageReceived message);
          QDebug (ParseFailed (getErrorDescription (fst (parseJsonText message)))
                              message)])).
Proof.
  split.
  - intros Hs Hm. destruct signal; try reflexivity.
    + exfalso. exact (Hs state eq_refl).
    + exfalso. exact (Hm message eq_refl).
  - intros message -> Hfail.
    unfold Window.deliver, on_text_message. simpl.
    destruct (parseJsonText message) as [[|kind] point]; simpl in *.
    + exfalso. apply Hfail. reflexivity.
    + reflexivity.
Qed.

End WindowProperties.

Lemma connection_display_follows_state_signals_witness :
  last (Window.states_signalled
          [Window.stateChanged Window.Connecting;
           Window.errorOccurred "refused";
           Window.stateChanged Window.Connected;
           Window.stateChanged Window.Closing]) Window.Disconnected
    = Window.Closing /\
  last (Window.shown_states
          (Window.actions
             (Window.session Window.example_parse Window.example_text
                Window.example_description
                [Window.stateChanged Window.Connecting;
                 Window.errorOccurred "refused";
                 Window.stateChanged Window.Connected;
                 Window.stateChanged Window.Closing]
                Window.uninitialized))) Window.DISCONNECTED
    = Window.DISCONNECTED.
Proof.
  destruct (@connection_display_follows_state_signals _ _
              Window.example_parse Window.example_text
              Window.example_description
              [Window.stateChanged Window.Connecting;
               Window.errorOccurred "refused";
               Window.stateChanged Window.Connected;
               Window.stateChanged Window.Closing])
    as (_ & _ & [_ H]).
  split; [reflexivity|]. apply H. right. reflexivity.
Defined.

Lemma sonar_widgets_show_the_parsed_points_witness :
  In (Window.UpdateSonarData Window.SonarVisualization (45%Z, 120%Z))
     (Window.actions
        (Window.session Window.example_parse Window.example_text
           Window.example_description
           [Window.textMessageReceived "garbage";
            Window.textMessageReceived "angle=45 distance=120"]
           Window.uninitialized)) /\
  In (45%Z, 120%Z)
     (Window.points_received Window.example_parse
        [Window.textMessageReceived "garbage";
         Window.textMessageReceived "angle=45 distance=120"]).
Proof.
  assert (Hin : In (Window.UpdateSonarData Window.SonarVisualization (45%Z, 120%Z))
     (Window.actions
        (Window.session Window.example_parse Window.example_text
           Window.example_description
           [Window.textMessageReceived "garbage";
            Window.textMessageReceived "angle=45 distance=120"]
           Window.uninitialized))).
  { vm_compute. auto 60. }
  split; [exact Hin|].
  destruct (@sonar_widgets_show_the_parsed_points _ _
              Window.example_parse Window.example_text
              Window.example_description
              [Window.textMessageReceived "garbage";
               Window.textMessageReceived "angle=45 distance=120"])
    as (_ & _ & H).
  exact (proj2 (H _ _ Hin)).
Defined.

Lemma unhandled_signals_and_bad_messages_show_nothing_witness :
  fst (Window.example_parse "garbage") <> Window.SUCCESS /\
  Window.deliver Window.example_parse Window.example_text
    Window.example_description (Window.textMessageReceived "garbage")
    (Window.constructed (Z * Z)) =
    (Some tt, Window.constructed (Z * Z),
     [Window.QDebug (Window.MessageReceived "garbage");
      Window.QDebug (Window.ParseFailed "malformed" "garbage")]) /\
  Window.deliver Window.example_parse Window.example_text
    Window.example_description (Window.errorOccurred "refused")
    (Window.constructed (Z * Z)) =
    (Some tt, Window.constructed (Z * Z), []).
Proof.
  assert (Hfail : fst (Window.example_parse "garbage") <> Window.SUCCESS)
    by discriminate.
  destruct (@unhandled_signals_and_bad_messages_show_nothing _ _
              Window.example_parse Window.example_text
              Window.example_description
              (Window.textMessageReceived "garbage")) as [_ Hbad].
  destruct (@unhandled_signals_and_bad_messages_show_nothing _ _
              Window.example_parse Window.example_text
              Window.example_description
              (Window.errorOccurred "refused")) as [Hnone _].
  split; [exact Hfail|]. split.
  - exact (Hbad "garbage" eq_refl Hfail).
  - apply Hnone; discriminate.
Defined.
